(** * kitties-app: the contract-call hook layer

    A shallow embedding of the hooks of the kitties marketplace front end
    (chain resolver, contract resolver, gene encoder, notification adapter,
    read-value hooks and action hooks) and the properties their
    specification states about them.

    JavaScript values are modelled by the types the code manipulates:
    strings as [string], integer numbers as [N] or [Z], [undefined]/[null]
    as [None], a thrown exception as [Thrown].  Side effects (console
    output, toasts, contract calls, transactions) are appended to a
    chronological event log threaded through a small state-and-exception
    monad. *)

From Stdlib Require Import Bool List String Ascii NArith ZArith Lia.
Import ListNotations.

Open Scope string_scope.

(* ================================================================== *)
(** * Outcomes of a JavaScript evaluation *)

Inductive Outcome (A : Type) : Type :=
| Returned (a : A)
| Thrown (message : string).

Arguments Returned {A} a.
Arguments Thrown {A} message.

(* ================================================================== *)
(** * Strings and numerals *)

(** [/[0-9]/] *)
Definition is_digit (c : ascii) : bool :=
  let n := N_of_ascii c in ((48 <=? n) && (n <=? 57))%N.

(** [/[0-9a-f]/i] *)
Definition is_hex_digit (c : ascii) : bool :=
  let n := N_of_ascii c in
  (((48 <=? n) && (n <=? 57)) || ((97 <=? n) && (n <=? 102))
   || ((65 <=? n) && (n <=? 70)))%N.

Definition digit_val (c : ascii) : N := (N_of_ascii c - 48)%N.

Definition hex_digit_val (c : ascii) : N :=
  let n := N_of_ascii c in
  (if 97 <=? n then n - 87 else if 65 <=? n then n - 55 else n - 48)%N.

Definition digit_char (d : N) : ascii := ascii_of_N (48 + d).

Fixpoint all_chars (p : ascii -> bool) (s : string) : bool :=
  match s with
  | EmptyString => true
  | String c s' => p c && all_chars p s'
  end.

(** Positional value of a numeral read left to right. *)
Fixpoint parse_radix (radix : N) (val : ascii -> N) (acc : N) (s : string) : N :=
  match s with
  | EmptyString => acc
  | String c s' => parse_radix radix val (radix * acc + val c)%N s'
  end.

Definition parse_decimal (s : string) : N := parse_radix 10 digit_val 0 s.
Definition parse_hex (s : string) : N := parse_radix 16 hex_digit_val 0 s.

(** Digits of [n], least significant first, pushed in front of [acc]. *)
Fixpoint digits_of (fuel : nat) (n : N) (acc : string) : string :=
  match fuel with
  | O => acc
  | S fuel' =>
      let acc' := String (digit_char (n mod 10)) acc in
      if (n / 10 =? 0)%N then acc' else digits_of fuel' (n / 10)%N acc'
  end.

(** [Number.MAX_SAFE_INTEGER]: up to here every integer is a JavaScript
    number and [String(n)] is its decimal numeral. *)
Definition MAX_SAFE_INTEGER : N := 9007199254740991.

(** The decimal numeral of [n], without leading zeros. *)
Definition decimal_of_N (n : N) : string :=
  digits_of (S (N.to_nat (N.log2 n))) n EmptyString.

(** [String(n)] (equally a template literal or [genes += n]) for a
    non-negative safe integer number [n]: its decimal numeral. *)
Definition Number_toString (n : N) : string := decimal_of_N n.

(** [!s] for a string: only the empty string is falsy. *)
Definition string_truthy (s : string) : bool :=
match s with EmptyString => false | String _ _ => true end.

(** [!v] for a value of type [string | undefined]. *)
Definition opt_string_truthy (s : option string) : bool :=
  match s with None => false | Some s => string_truthy s end.

(* ================================================================== *)
(** * ethers: [BigNumber.from] on a string *)

Definition BigNumber := Z.

Definition is_x (c : ascii) : bool :=
  (Ascii.eqb c "x" || Ascii.eqb c "X")%bool.

(** [BigNumber.from(value)] for a string [value]: a hexadecimal numeral
    [/^-?0x[0-9a-f]+$/i] or a decimal numeral [/^-?[0-9]+$/], anything else
    throws. *)
Definition BigNumber_from (value : string) : Outcome BigNumber :=
  let '(negative, body) :=
    match value with
    | String "-"%char rest => (true, rest)
    | _ => (false, value)
    end in
  let sign (n : N) : Z := if negative then (- Z.of_N n)%Z else Z.of_N n in
  let decimal :=
    if string_truthy body && all_chars is_digit body
    then Returned (sign (parse_decimal body))
    else Thrown "invalid BigNumber string" in
  match body with
  | String "0"%char (String c digits) =>
      if is_x c && string_truthy digits && all_chars is_hex_digit digits
      then Returned (sign (parse_hex digits))
      else decimal
  | _ => decimal
  end.

(* ================================================================== *)
(** * Domain encoder: DNA to genes *)

(** Modelled from the spec: the [DNA] type (declared in [types], outside the
    sources) is "an ordered record of named genetic-trait fields (each an
    integer-like value)".  A record is its own properties in creation
    order, each a trait name with a non-negative integer number. *)
Definition DNA := list (string * N).

(** [Object.values(dna)]: the property values in property order (trait
    names are identifiers, so property order is creation order). *)
Definition Object_values (dna : DNA) : list N := map snd dna.

(** Every trait value is a safe integer. *)
Definition safe_dna (dna : DNA) : Prop :=
  Forall (fun v => (v <= MAX_SAFE_INTEGER)%N) (Object_values dna).

(** [convertDnaToGenes]: [genes] starts as the empty string, every value of
    [Object.values(dna)] is appended to it in turn ([genes += dnaValue]),
    and [BigNumber.from(genes)] is returned. *)
Definition convertDnaToGenes (dna : DNA) : Outcome BigNumber :=
  let genes :=
    fold_left (fun genes dnaValue => genes ++ Number_toString dnaValue)
              (Object_values dna) EmptyString in
  BigNumber_from genes.

(** [useDnaToGenes]: the memoised [convertDnaToGenes(dna)]. *)
Definition useDnaToGenes (dna : DNA) : Outcome BigNumber := convertDnaToGenes dna.

(** [genes.toString()] of a [BigNumber]: its decimal numeral. *)
Definition BigNumber_toString (b : BigNumber) : string :=
  if (b <? 0)%Z then String "-" (decimal_of_N (Z.to_N (- b)))
  else decimal_of_N (Z.to_N b).

(* ================================================================== *)
(** * JavaScript values and truthiness *)

(** The values the hooks receive as [BigNumberish] arguments and as call
    results: a [BigNumber] object, a byte array, a bigint, a string, an
    integer number, a boolean. *)
Inductive JsValue : Type :=
| VBigNumber (z : Z)
| VBytes (bytes : list N)
| VBigInt (z : Z)
| VString (s : string)
| VNumber (z : Z)
| VBool (b : bool).

Definition BigNumberish := JsValue.

(** [!!v]: objects are truthy, [0], [0n], the empty string and [false] are
    not. *)
Definition truthy (v : JsValue) : bool :=
  match v with
  | VBigNumber _ => true
  | VBytes _ => true
  | VBigInt z => negb (z =? 0)%Z
  | VString s => string_truthy s
  | VNumber z => negb (z =? 0)%Z
  | VBool b => b
  end.

(** [!!v] for an optional value, [None] being [undefined]. *)
Definition opt_truthy (v : option JsValue) : bool :=
  match v with None => false | Some v => truthy v end.

(** A value inside a template literal. *)
Definition template (s : option string) : string :=
  match s with Some s => s | None => "undefined" end.

Definition newline : string := String (ascii_of_N 10) EmptyString.

(* ================================================================== *)
(** * The world the hooks act on *)

Inductive Web3Provider : Type := provider (name : N).

Inductive ProviderOrSigner : Type :=
| of_provider (library : Web3Provider)
| of_signer (library : Web3Provider) (account : string).

Inductive Interface : Type := KittyContractInterface | MarketplaceContractInterface.

(** [new Contract(address, ABI, signerOrProvider)] *)
Record Contract : Type := new_Contract {
  contract_address : string;
  contract_interface : Interface;
  signerOrProvider : ProviderOrSigner }.

(** The argument of [useCall]. *)
Record Call : Type := {
  call_contract : Contract;
  call_method : string;
  call_args : list (option JsValue) }.

(** What [useCall] returns for a call: [value] or [error], the latter
    kept as its [message]. *)
Record CallResult : Type := {
  value : option (list JsValue);
  error : option string }.

(** [TransactionStatus["status"]] *)
Inductive Status : Type :=
| StatusNone | PendingSignature | Mining | Success | Fail | Exception.

Record TransactionStatus : Type := {
  status : Status;
  errorMessage : option string }.

(** The promise [send] returns, identified by the transaction it sends. *)
Record Promise : Type := {
  tx_contract : option Contract;
  tx_method : string;
  tx_args : list (option JsValue);
  tx_value : option JsValue }.

Inductive ToastKind : Type := toast_error | toast_loading | toast_success.

(** A notification handed to react-hot-toast: the options it was issued
    with ([id], [duration]; no [duration] leaves the kind's default, which
    for a loading toast is to stay) and the identity it got. *)
Record Toast : Type := {
  toast_kind : ToastKind;
  toast_message : string;
  toast_opts_id : string;
  toast_duration : option Z;
  toast_id : string }.

Inductive Event : Type :=
| EvConsoleError (args : list string)
| EvResetState
| EvToast (t : Toast)
| EvCall (c : Call)
| EvSend (p : Promise).

(** The dependency array of the effect of [useContractNotification]:
    [errorMessage], [miningMessage], [status], [successMessage].  Its fifth
    entry, [resetState], is the memoised callback of [useContractFunction]
    and keeps its identity from render to render, so it never makes the
    array differ. *)
Definition Deps : Type := (string * string * Status * string)%type.

(** One hook instance and what it did: the events so far, the [useRef] of
    the notification handle, the counter of react-hot-toast, and the
    dependency array of the last render, [None] before the first. *)
Record World : Type := {
  events : list Event;
  toastRef : string;
  toastCount : N;
  effectDeps : option Deps }.

(** A fresh hook instance: nothing happened, [useRef] holds the empty
    string. *)
Definition initial_World : World :=
  {| events := []; toastRef := EmptyString; toastCount := 0; effectDeps := None |}.

(* ================================================================== *)
(** * State and exceptions *)

Definition Js (A : Type) : Type := World -> Outcome A * World.

Definition ret {A : Type} (a : A) : Js A := fun w => (Returned a, w).

Definition bind {A B : Type} (m : Js A) (k : A -> Js B) : Js B :=
  fun w =>
    match m w with
    | (Returned a, w') => k a w'
    | (Thrown e, w') => (Thrown e, w')
    end.

Notation "x <- m ;; k" := (bind m (fun x => k))
  (at level 61, m at next level, right associativity).
Notation "m ;; k" := (bind m (fun _ => k))
  (at level 61, right associativity).

Definition lift {A : Type} (o : Outcome A) : Js A := fun w => (o, w).

Definition try_catch {A : Type} (m : Js A) (handler : string -> Js A) : Js A :=
  fun w =>
    match m w with
    | (Returned a, w') => (Returned a, w')
    | (Thrown e, w') => handler e w'
    end.

Definition emit (e : Event) : Js unit :=
  fun w =>
    (Returned tt,
     {| events := events w ++ [e]; toastRef := toastRef w; toastCount := toastCount w;
        effectDeps := effectDeps w |}).

Definition read_toastRef : Js string := fun w => (Returned (toastRef w), w).

Definition write_toastRef (id : string) : Js unit :=
  fun w =>
    (Returned tt,
     {| events := events w; toastRef := id; toastCount := toastCount w;
        effectDeps := effectDeps w |}).

Definition console_error (args : list string) : Js unit := emit (EvConsoleError args).

(** The events of a run and its result. *)
Definition result {A : Type} (r : Outcome A * World) : Outcome A := fst r.
Definition trace {A : Type} (r : Outcome A * World) : list Event := events (snd r).

(* ================================================================== *)
(** * react-hot-toast *)

(** [genId]: the next value of a counter, as a string. *)
Definition genId : Js string :=
  fun w =>
    let count := (toastCount w + 1)%N in
    (Returned (decimal_of_N count),
     {| events := events w; toastRef := toastRef w; toastCount := count;
        effectDeps := effectDeps w |}).

(** [toast.error], [toast.loading], [toast.success]: the toast gets the
    identity [opts.id || genId()], is upserted under it, and the identity
    is returned. *)
Definition toast (kind : ToastKind) (message : string)
    (id : string) (duration : option Z) : Js string :=
  toastId <- (if string_truthy id then ret id else genId) ;;
  emit (EvToast {| toast_kind := kind; toast_message := message;
                   toast_opts_id := id; toast_duration := duration;
                   toast_id := toastId |}) ;;
  ret toastId.

(* ================================================================== *)
(** * What the hooks import *)

Definition AddressZero : string := "0x0000000000000000000000000000000000000000".

(** [ChainId.Mumbai], [ChainId.Polygon] *)
Definition Mumbai : Z := 80001.
Definition Polygon : Z := 137.

(** An entry of [CONTRACTS]. *)
Record Addresses : Type := {
  kitty : option string;
  marketplace : option string }.

(** [useEthers()] *)
Record Ethers : Type := {
  chainId : option Z;
  library : option Web3Provider;
  account : option string }.

(** The imports whose code is outside this layer: [isAddress] and
    [parseEther] of ethers, the [CONTRACTS] table of the configuration,
    and the chain that answers a [useCall] ([None] while there is no
    answer). *)
Class Imports : Type := {
  isAddress : string -> bool;
  parseEther : string -> Outcome Z;
  CONTRACTS : Z -> Addresses;
  chain : Call -> option CallResult }.

(** An address in the format ethers accepts without a checksum: [0x] and
    forty lower-case hexadecimal digits. *)
Definition is_lower_hex (c : ascii) : bool :=
  let n := N_of_ascii c in
  (((48 <=? n) && (n <=? 57)) || ((97 <=? n) && (n <=? 102)))%N.

Definition isAddress_lower (address : string) : bool :=
  match address with
  | String "0"%char (String "x"%char digits) =>
      (String.length digits =? 40)%nat && all_chars is_lower_hex digits
  | _ => false
  end.

Definition kitty_address : string := "0x00000000000000000000000000000000000000a1".
Definition marketplace_address : string := "0x00000000000000000000000000000000000000b2".

(** A sample of the imports: both networks configured, ether amounts given
    as decimal integers, a chain that answers [getGen0Price] with one value
    and every other call with an error. *)
Definition sample_Imports : Imports := {|
  isAddress := isAddress_lower;
  parseEther := fun ether =>
    if string_truthy ether && all_chars is_digit ether
    then Returned (Z.of_N (parse_decimal ether) * 10 ^ 18)%Z
    else Thrown "invalid decimal value";
  CONTRACTS := fun _ =>
    {| kitty := Some kitty_address; marketplace := Some marketplace_address |};
  chain := fun c =>
    if String.eqb (call_method c) "getGen0Price"
    then Some {| value := Some [VBigNumber 5]; error := None |}
    else Some {| value := None; error := Some "call reverted" |} |}.

Definition sample_Ethers : Ethers := {|
  chainId := Some Mumbai;
  library := Some (provider 1);
  account := Some "0x00000000000000000000000000000000000000c3" |}.

Section Hooks.

Context {imports : Imports}.
Variable ethers : Ethers.

(* ================================================================== *)
(** * Contract resolver *)

Definition getSigner (library : Web3Provider) (account : string) : ProviderOrSigner :=
  of_signer library account.

Definition getProviderOrSigner (library : Web3Provider) (account : option string)
  : ProviderOrSigner :=
  if opt_string_truthy account
  then match account with
       | Some account => getSigner library account
       | None => of_provider library
       end
  else of_provider library.

Definition getContract (address : string) (ABI : Interface)
    (library : Web3Provider) (account : option string) : Outcome Contract :=
  if negb (isAddress address) || String.eqb address AddressZero
  then Thrown ("Invalid 'address' parameter '" ++ address ++ "'.")
  else Returned (new_Contract address ABI (getProviderOrSigner library account)).

(** [withSignerIfPossible = true]: the default applies when the argument is
    [undefined]. *)
Definition default_true (withSignerIfPossible : option bool) : bool :=
  match withSignerIfPossible with Some b => b | None => true end.

Definition useContract (address : option string) (ABI : option Interface)
    (withSignerIfPossible : option bool) : Js (option Contract) :=
  let withSignerIfPossible := default_true withSignerIfPossible in
  match address, ABI, library ethers with
  | Some address, Some ABI, Some library =>
      if negb (string_truthy address) || String.eqb address AddressZero
      then ret None
      else
        try_catch
          (contract <- lift (getContract address ABI library
                               (if withSignerIfPossible && opt_string_truthy (account ethers)
                                then account ethers else None)) ;;
           ret (Some contract))
          (fun error =>
             console_error ["Failed to get contract"; error] ;;
             ret None)
  | _, _, _ => ret None
  end.

(* ================================================================== *)
(** * Chain resolver *)

Definition useChainId : Z :=
  match chainId ethers with
  | Some chainId =>
      if (chainId =? Mumbai)%Z then chainId
      else if (chainId =? Polygon)%Z then chainId
      else Mumbai
  | None => Mumbai
  end.

Definition useKittyContract (withSignerIfPossible : option bool) : Js (option Contract) :=
  let chainId := useChainId in
  useContract (kitty (CONTRACTS chainId)) (Some KittyContractInterface)
              withSignerIfPossible.

Definition useMarketplaceContract (withSignerIfPossible : option bool)
  : Js (option Contract) :=
  let chainId := useChainId in
  useContract (marketplace (CONTRACTS chainId)) (Some MarketplaceContractInterface)
              withSignerIfPossible.

(* ================================================================== *)
(** * Read-value hooks *)

(** [useCall(call)]: a falsy [call] is not issued and gives [undefined]. *)
Definition useCall (call : option Call) : Js (option CallResult) :=
  match call with
  | None => ret None
  | Some call => emit (EvCall call) ;; ret (chain call)
  end.

(** [const { value, error } = r ?? {}] *)
Definition destructure (r : option CallResult)
  : option (list JsValue) * option string :=
  match r with
  | Some r => (value r, error r)
  | None => (None, None)
  end.

(** [value?.[0]] *)
Definition first_of (value : option (list JsValue)) : option JsValue :=
  match value with
  | Some (v :: _) => Some v
  | _ => None
  end.

Definition useTotalSupply : Js (option JsValue) :=
  contract <- useKittyContract (Some false) ;;
  r <- useCall (match contract with
                | Some contract =>
                    Some {| call_contract := contract; call_method := "totalSupply";
                            call_args := [] |}
                | None => None
                end) ;;
  let '(value, error) := destructure r in
  match error with
  | Some message => console_error [message]
  | None => ret tt
  end ;;
  ret (first_of value).

Definition useGen0Price : Js (option JsValue) :=
  contract <- useKittyContract (Some false) ;;
  r <- useCall (match contract with
                | Some contract =>
                    Some {| call_contract := contract; call_method := "getGen0Price";
                            call_args := [] |}
                | None => None
                end) ;;
  let '(value, error) := destructure r in
  match error with
  | Some message => console_error [message]
  | None => ret tt
  end ;;
  ret (first_of value).

Definition useIsApprovedForAll (address : option string) : Js (option JsValue) :=
  contract <- useKittyContract None ;;
  let chainId := useChainId in
  r <- useCall (if opt_string_truthy address
                then match address, contract with
                     | Some address, Some contract =>
                         Some {| call_contract := contract;
                                 call_method := "isApprovedForAll";
                                 call_args :=
                                   [Some (VString address);
                                    option_map VString (marketplace (CONTRACTS chainId))] |}
                     | _, _ => None
                     end
                else None) ;;
  let '(value, error) := destructure r in
  match error with
  | Some message => console_error [message]
  | None => ret tt
  end ;;
  ret (first_of value).

(* ================================================================== *)
(** * Notification adapter *)

(** The body of the effect of [useContractNotification]; [toastRef] is the
    hook's [useRef], kept in the world. *)
Definition useContractNotification (resetState : Js unit) (status : Status)
    (errorMessage miningMessage successMessage : string) : Js unit :=
  match status with
  | Exception | Fail =>
      resetState ;;
      if negb (string_truthy errorMessage) then ret tt
      else
        current <- read_toastRef ;;
        toastId <- toast toast_error errorMessage current (Some 6000%Z) ;;
        write_toastRef toastId
  | Mining =>
      if negb (string_truthy miningMessage) then ret tt
      else
        current <- read_toastRef ;;
        toastId <- toast toast_loading miningMessage current None ;;
        write_toastRef toastId
  | Success =>
      resetState ;;
      if negb (string_truthy successMessage) then ret tt
      else
        current <- read_toastRef ;;
        toastId <- toast toast_success successMessage current (Some 6000%Z) ;;
        write_toastRef toastId
  | StatusNone | PendingSignature => ret tt
  end.

(** The effect run once for each status of a sequence of observed
    statuses, on the same hook instance. *)
Fixpoint observe (resetState : Js unit) (errorMessage miningMessage successMessage : string)
    (statuses : list Status) : Js unit :=
  match statuses with
  | [] => ret tt
  | status :: statuses =>
      useContractNotification resetState status errorMessage miningMessage successMessage ;;
      observe resetState errorMessage miningMessage successMessage statuses
  end.

(** [===] on statuses. *)
Definition Status_eqb (s1 s2 : Status) : bool :=
  match s1, s2 with
  | StatusNone, StatusNone | PendingSignature, PendingSignature
  | Mining, Mining | Success, Success | Fail, Fail | Exception, Exception => true
  | _, _ => false
  end.

(** The dependency arrays of two renders are the same, entry by entry. *)
Definition same_deps (d1 d2 : Deps) : bool :=
  let '(errorMessage1, miningMessage1, status1, successMessage1) := d1 in
  let '(errorMessage2, miningMessage2, status2, successMessage2) := d2 in
  String.eqb errorMessage1 errorMessage2 && String.eqb miningMessage1 miningMessage2
  && Status_eqb status1 status2 && String.eqb successMessage1 successMessage2.

(** [useEffect(effect, deps)]: the effect runs after the first render and
    after every render whose dependency array differs from the one of the
    render before; the array of this render is kept for the next. *)
Definition useEffect (effect : Js unit) (deps : Deps) : Js unit :=
  fun w =>
    let fires :=
      match effectDeps w with
      | Some last => negb (same_deps last deps)
      | None => true
      end in
    let w' := {| events := events w; toastRef := toastRef w;
                 toastCount := toastCount w; effectDeps := Some deps |} in
    if fires then effect w' else (Returned tt, w').

(** [useContractNotification({...})] in a render of an action hook: the
    effect under its dependency array. *)
Definition useContractNotification_in_render (resetState : Js unit) (status : Status)
    (errorMessage miningMessage successMessage : string) : Js unit :=
  useEffect
    (useContractNotification resetState status errorMessage miningMessage successMessage)
    (errorMessage, miningMessage, status, successMessage).

(* ================================================================== *)
(** * Action hooks *)

(** What [useContractFunction(contract, method)] gives the hooks: [send],
    [state] and [resetState] of one contract function. *)
Record ContractFunction : Type := useContractFunction {
  function_contract : option Contract;
  function_method : string;
  state : TransactionStatus }.

(** [f.send(...args)] with the overrides' [value], if any. *)
Definition send (f : ContractFunction) (args : list (option JsValue))
    (value : option JsValue) : Js Promise :=
  let promise := {| tx_contract := function_contract f; tx_method := function_method f;
                    tx_args := args; tx_value := value |} in
  emit (EvSend promise) ;;
  ret promise.

Definition resetState (f : ContractFunction) : Js unit := emit EvResetState.

(** What an action hook returns: the contract function and the callable. *)
Record ActionHook : Type := {
  function : ContractFunction;
  callable : Js (option Promise) }.

Definition onApprove (approve : ContractFunction) (address : option string)
    (approved : option bool) : Js (option Promise) :=
  match address, approved with
  | Some address, Some approved =>
      if negb (string_truthy address) then ret None
      else
        promise <- send approve [Some (VString address); Some (VBool approved)] None ;;
        ret (Some promise)
  | _, _ => ret None
  end.

Definition useSetApprovalForAll (st : TransactionStatus) (approved : option bool)
  : Js ActionHook :=
  contract <- useKittyContract None ;;
  let chainId := useChainId in
  let address := marketplace (CONTRACTS chainId) in
  let approve := useContractFunction contract "setApprovalForAll" st in
  useContractNotification_in_render (resetState approve) (status (state approve))
    ("Error - approval for all tokens " ++ newline
       ++ template (errorMessage (state approve)) ++ " ")
    "Loading - set approval for all tokens"
    "Success - set approval for all tokens" ;;
  ret {| function := approve; callable := onApprove approve address approved |}.

Definition onCreateListing (createListing : ContractFunction) (price : option string)
    (tokenId : option BigNumberish) : Js (option Promise) :=
  match price with
  | Some price =>
      if negb (string_truthy price) || negb (opt_truthy tokenId) then ret None
      else
        wei <- lift (parseEther price) ;;
        promise <- send createListing [Some (VBigNumber wei); tokenId] None ;;
        ret (Some promise)
  | None => ret None
  end.

Definition useCreateListing (st : TransactionStatus) (price : option string)
    (tokenId : option BigNumberish) : Js ActionHook :=
  contract <- useMarketplaceContract None ;;
  let createListing := useContractFunction contract "setOffer" st in
  useContractNotification_in_render (resetState createListing) (status (state createListing))
    ("Error - create listing " ++ newline
       ++ template (errorMessage (state createListing)) ++ " ")
    "Loading - create listing"
    "Success - create listing" ;;
  ret {| function := createListing;
         callable := onCreateListing createListing price tokenId |}.

Definition onRemoveListing (removeListing : ContractFunction)
    (tokenId : option BigNumberish) : Js (option Promise) :=
  if negb (opt_truthy tokenId) then ret None
  else
    promise <- send removeListing [tokenId] None ;;
    ret (Some promise).

Definition useRemoveListing (st : TransactionStatus) (tokenId : option BigNumberish)
  : Js ActionHook :=
  contract <- useMarketplaceContract None ;;
  let removeListing := useContractFunction contract "removeOffer" st in
  useContractNotification_in_render (resetState removeListing) (status (state removeListing))
    ("Error - remove listing " ++ newline
       ++ template (errorMessage (state removeListing)) ++ " ")
    "Loading - remove listing"
    "Success - remove listing" ;;
  ret {| function := removeListing; callable := onRemoveListing removeListing tokenId |}.

Definition onCreate (create : ContractFunction) (gen0Price : option JsValue)
    (genes : BigNumber) : Js (option Promise) :=
  if negb (opt_truthy gen0Price) then ret None
  else
    promise <- send create [Some (VBigNumber genes)] gen0Price ;;
    ret (Some promise).

Definition useCreateGen0Kitty (st : TransactionStatus) (dna : DNA) : Js ActionHook :=
  contract <- useKittyContract None ;;
  gen0Price <- useGen0Price ;;
  let create := useContractFunction contract "createKittyGen0" st in
  genes <- lift (useDnaToGenes dna) ;;
  useContractNotification_in_render (resetState create) (status (state create))
    ("Error - create Gen0 Kitty: " ++ newline
       ++ template (errorMessage (state create)) ++ " ")
    ("Loading - create Gen0 Kitty with genes: " ++ BigNumber_toString genes ++ "...")
    ("Success - create Gen0 Kitty with genes: " ++ BigNumber_toString genes) ;;
  ret {| function := create; callable := onCreate create gen0Price genes |}.

Definition onBreed (breed : ContractFunction) (momId dadId : option BigNumberish)
  : Js (option Promise) :=
  promise <- send breed [momId; dadId] None ;;
  ret (Some promise).

Definition useBreed (st : TransactionStatus) (momId dadId : option BigNumberish)
  : Js ActionHook :=
  contract <- useKittyContract None ;;
  let breed := useContractFunction contract "breed" st in
  useContractNotification_in_render (resetState breed) (status (state breed))
    ("Error - breeding " ++ newline ++ template (errorMessage (state breed)) ++ " ")
    "Loading - breed kitty..."
    "Success - breed kitty" ;;
  ret {| function := breed; callable := onBreed breed momId dadId |}.

(** [onBuy] sends and falls off the end of its body: it returns
    [undefined] on every path. *)
Definition onBuy (buy : ContractFunction) (price tokenId : option BigNumberish)
  : Js (option Promise) :=
  if negb (opt_truthy tokenId) || negb (opt_truthy price) then ret None
  else
    send buy [tokenId] price ;;
    ret None.

Definition useBuyKitty (st : TransactionStatus) (price tokenId : option BigNumberish)
  : Js ActionHook :=
  contract <- useMarketplaceContract None ;;
  let buy := useContractFunction contract "buyKitty" st in
  useContractNotification_in_render (resetState buy) (status (state buy))
    ("Error - buy kitty " ++ newline ++ template (errorMessage (state buy)) ++ " ")
    "Loading - buy kitty..."
    "Success - buy kitty" ;;
  ret {| function := buy; callable := onBuy buy price tokenId |}.

End Hooks.

(* ================================================================== *)
(** * Reading a run *)

(** The world after more events were logged. *)
Definition log_to (w : World) (evs : list Event) : World :=
  {| events := events w ++ evs; toastRef := toastRef w; toastCount := toastCount w;
     effectDeps := effectDeps w |}.

Definition is_call (e : Event) : bool :=
  match e with EvCall _ => true | _ => false end.

Definition is_send (e : Event) : bool :=
  match e with EvSend _ => true | _ => false end.


Definition is_reset (e : Event) : bool :=
  match e with EvResetState => true | _ => false end.

(** The identity [toast] gives a notification issued under the handle
    [id] when the counter stands at [count]. *)
Definition issued_id (id : string) (count : N) : string :=
  if string_truthy id then id else decimal_of_N (count + 1).

(** The world after a notification was issued under the current handle and
    the handle overwritten with its identity. *)
Definition notified (w : World) (kind : ToastKind) (message : string)
    (duration : option Z) : World :=
  let id := issued_id (toastRef w) (toastCount w) in
  {| events := events w ++ [EvToast {| toast_kind := kind; toast_message := message;
                                       toast_opts_id := toastRef w;
                                       toast_duration := duration; toast_id := id |}];
     toastRef := id;
     toastCount := if string_truthy (toastRef w) then toastCount w
                   else (toastCount w + 1)%N;
     effectDeps := effectDeps w |}.

(** Every notification of [evs] is issued under the handle as it stands
    when it is issued, the handle standing at [handle] first and at the
    identity of the last notification thereafter. *)
Fixpoint under_handle (handle : string) (evs : list Event) : Prop :=
  match evs with
  | [] => True
  | EvToast t :: evs => toast_opts_id t = handle /\ under_handle (toast_id t) evs
  | _ :: evs => under_handle handle evs
  end.

(** The handle after [evs]. *)
Fixpoint handle_after (handle : string) (evs : list Event) : string :=
  match evs with
  | [] => handle
  | EvToast t :: evs => handle_after (toast_id t) evs
  | _ :: evs => handle_after handle evs
  end.

(** The run of a read-value hook that issues [call]: the call is logged,
    an error of the answer is logged after it, and the first value of the
    answer, if there is one, is returned. *)
Definition answered {imports : Imports} (call : Call) (w : World)
  : Outcome (option JsValue) * World :=
  match chain call with
  | None => (Returned None, log_to w [EvCall call])
  | Some r =>
      (Returned (first_of (value r)),
       log_to w (EvCall call ::
                 match error r with
                 | Some message => [EvConsoleError [message]]
                 | None => []
                 end))
  end.

(** From [w] to [w'] the events [new] were logged, every notification
    among them under the handle of its moment, and the handle of [w'] is
    the identity of the last of them. *)
Definition extends (w w' : World) (new : list Event) : Prop :=
  events w' = (events w ++ new)%list
  /\ under_handle (toastRef w) new
  /\ toastRef w' = handle_after (toastRef w) new.

(** The transaction [f.send(...args)] sends. *)
Definition transaction (f : ContractFunction) (args : list (option JsValue))
    (value : option JsValue) : Promise :=
  {| tx_contract := function_contract f; tx_method := function_method f;
     tx_args := args; tx_value := value |}.

(* ================================================================== *)
(** * Sample hook instances *)

Definition idle : TransactionStatus := {| status := StatusNone; errorMessage := None |}.

Definition sample_account : string := "0x00000000000000000000000000000000000000c3".

Definition sample_kitty : Contract :=
  new_Contract kitty_address KittyContractInterface
    (of_signer (provider 1) sample_account).

Definition sample_marketplace : Contract :=
  new_Contract marketplace_address MarketplaceContractInterface
    (of_signer (provider 1) sample_account).

Definition sample_buy : ContractFunction :=
  useContractFunction (Some sample_marketplace) "buyKitty" idle.

Definition sample_breed : ContractFunction :=
  useContractFunction (Some sample_kitty) "breed" idle.


(** What a contract resolved from [library] is bound to: the signer of
    the connected account when a signer is asked for and an account is
    connected, the provider otherwise. *)
Definition bound_to (ethers : Ethers) (withSignerIfPossible : option bool)
    (library : Web3Provider) : ProviderOrSigner :=
  match account ethers with
  | Some account =>
      if default_true withSignerIfPossible && string_truthy account
      then of_signer library account
      else of_provider library
  | None => of_provider library
  end.

(** The statuses on which the adapter resets the state of the action. *)
Definition is_terminal (status : Status) : bool :=
  match status with
  | Success | Fail | Exception => true
  | StatusNone | PendingSignature | Mining => false
  end.

Definition resets (evs : list Event) : nat := List.length (filter is_reset evs).

(** An event that is no notification, or a notification of identity [id]. *)
Definition has_identity (id : string) (e : Event) : Prop :=
  match e with
  | EvToast t => toast_id t = id
  | _ => True
  end.

(** The transactions sent among [evs]. *)
Definition sends (evs : list Event) : list Event := filter is_send evs.

(** No wallet connected: [useEthers] has no chain, library or account. *)
Definition no_wallet : Ethers := {| chainId := None; library := None; account := None |}.




(** A numeral that starts with a digit other than [0]. *)
Definition no_leading_zero (s : string) : bool :=
  match s with
  | String c _ => negb (digit_val c =? 0)%N
  | EmptyString => false
  end.

(** The effect of a render under the dependency array [deps] fires: it is
    the first render, or the array differs from the one of the render
    before. *)
Definition fires (w : World) (deps : Deps) : bool :=
  match effectDeps w with
  | Some last => negb (same_deps last deps)
  | None => true
  end.


(* ================================================================== *)
(** * Sample DNA *)

Definition dna_1_23_4 : DNA := [("a", 1%N); ("b", 23%N); ("c", 4%N)].
Definition dna_12_3_4 : DNA := [("a", 12%N); ("b", 3%N); ("c", 4%N)].

(** The decimal strings of the fields, in property order. *)
Definition field_strings (dna : DNA) : list string :=
  map Number_toString (Object_values dna).

(** Corresponding fields are written with the same number of digits. *)
Definition same_widths (dna1 dna2 : DNA) : Prop :=
  Forall2 (fun s1 s2 => String.length s1 = String.length s2)
          (field_strings dna1) (field_strings dna2).

(* ================================================================== *)
(** * Numerals *)

Lemma all_chars_app (p : ascii -> bool) (s1 s2 : string) :
  all_chars p (s1 ++ s2) = all_chars p s1 && all_chars p s2.
Proof.
  induction s1 as [|c s1 IH]; simpl; [reflexivity|].
  now rewrite IH, andb_assoc.
Qed.

Lemma string_truthy_app_l (s1 s2 : string) :
  string_truthy s1 = true -> string_truthy (s1 ++ s2) = true.
Proof. destruct s1; simpl; [discriminate | reflexivity]. Qed.

Lemma app_empty_r (s : string) : s ++ EmptyString = s.
Proof. induction s as [|c s IH]; simpl; [reflexivity | now rewrite IH]. Qed.

Lemma app_assoc_string (s1 s2 s3 : string) : (s1 ++ s2) ++ s3 = s1 ++ (s2 ++ s3).
Proof. induction s1 as [|c s1 IH]; simpl; [reflexivity | now rewrite IH]. Qed.

Lemma length_app_string (s1 s2 : string) :
  String.length (s1 ++ s2) = (String.length s1 + String.length s2)%nat.
Proof. induction s1 as [|c s1 IH]; simpl; [reflexivity | now rewrite IH]. Qed.

Lemma small_digit (d : N) :
  (d < 10)%N ->
  d = 0%N \/ d = 1%N \/ d = 2%N \/ d = 3%N \/ d = 4%N \/
  d = 5%N \/ d = 6%N \/ d = 7%N \/ d = 8%N \/ d = 9%N.
Proof. lia. Qed.

Lemma digit_char_is_digit (d : N) : (d < 10)%N -> is_digit (digit_char d) = true.
Proof.
  intros H; destruct (small_digit d H) as [E|[E|[E|[E|[E|[E|[E|[E|[E|E]]]]]]]]];
    subst d; reflexivity.
Qed.

Lemma digit_val_digit_char (d : N) : (d < 10)%N -> digit_val (digit_char d) = d.
Proof.
  intros H; destruct (small_digit d H) as [E|[E|[E|[E|[E|[E|[E|[E|[E|E]]]]]]]]];
    subst d; reflexivity.
Qed.

Lemma is_digit_range (c : ascii) :
  is_digit c = true -> (48 <= N_of_ascii c <= 57)%N.
Proof.
  unfold is_digit; intros H; apply andb_true_iff in H as [H1 H2].
  apply N.leb_le in H1; apply N.leb_le in H2; lia.
Qed.

Lemma digit_val_lt (c : ascii) : is_digit c = true -> (digit_val c < 10)%N.
Proof. intros H; apply is_digit_range in H; unfold digit_val; lia. Qed.

Lemma digit_val_inj (c1 c2 : ascii) :
  is_digit c1 = true -> is_digit c2 = true -> digit_val c1 = digit_val c2 -> c1 = c2.
Proof.
  intros H1 H2 E; apply is_digit_range in H1; apply is_digit_range in H2.
  unfold digit_val in E.
  rewrite <- (ascii_N_embedding c1), <- (ascii_N_embedding c2).
  f_equal; lia.
Qed.

(** A digit is neither a sign nor the [x] of a hexadecimal prefix. *)
Lemma digit_not_minus (c : ascii) : is_digit c = true -> c <> "-"%char.
Proof. intros H E; subst c; discriminate H. Qed.

Lemma digit_not_x (c : ascii) : is_digit c = true -> is_x c = false.
Proof.
  intros H; unfold is_x.
  destruct (Ascii.eqb_spec c "x") as [E|_]; [subst c; discriminate H|].
  destruct (Ascii.eqb_spec c "X") as [E|_]; [subst c; discriminate H|].
  reflexivity.
Qed.

Lemma digits_of_all_digits (fuel : nat) : forall (n : N) (acc : string),
  all_chars is_digit acc = true -> all_chars is_digit (digits_of fuel n acc) = true.
Proof.
  induction fuel as [|fuel IH]; intros n acc H; simpl; [exact H|].
  assert (D : is_digit (digit_char (n mod 10)) = true)
    by (apply digit_char_is_digit, N.mod_lt; discriminate).
  destruct (n / 10 =? 0)%N.
  - simpl; now rewrite D.
  - apply IH; simpl; now rewrite D.
Qed.

Lemma digits_of_length (fuel : nat) : forall (n : N) (acc : string),
  (String.length acc <= String.length (digits_of fuel n acc))%nat.
Proof.
  induction fuel as [|fuel IH]; intros n acc; simpl; [lia|].
  destruct (n / 10 =? 0)%N; [simpl; lia|].
  specialize (IH (n / 10)%N (String (digit_char (n mod 10)) acc)); simpl in IH; lia.
Qed.

Lemma decimal_of_N_all_digits (n : N) : all_chars is_digit (decimal_of_N n) = true.
Proof. apply digits_of_all_digits; reflexivity. Qed.

Lemma decimal_of_N_truthy (n : N) : string_truthy (decimal_of_N n) = true.
Proof.
  unfold decimal_of_N; simpl.
  destruct (n / 10 =? 0)%N; [reflexivity|].
  pose proof (digits_of_length (N.to_nat (N.log2 n)) (n / 10)
                (String (digit_char (n mod 10)) EmptyString)) as L.
  destruct (digits_of _ _ _); simpl in *; [lia | reflexivity].
Qed.

Lemma parse_radix_acc (radix : N) (val : ascii -> N) (s : string) : forall acc,
  parse_radix radix val acc s
  = (acc * radix ^ N.of_nat (String.length s) + parse_radix radix val 0 s)%N.
Proof.
  induction s as [|c s IH]; intros acc; simpl String.length.
  - simpl; lia.
  - cbn [parse_radix]. rewrite IH, (IH (radix * 0 + val c)%N).
    rewrite Nat2N.inj_succ, N.pow_succ_r'. lia.
Qed.

Lemma parse_radix_app (radix : N) (val : ascii -> N) (s1 s2 : string) : forall acc,
  parse_radix radix val acc (s1 ++ s2)
  = parse_radix radix val (parse_radix radix val acc s1) s2.
Proof. induction s1 as [|c s1 IH]; intros acc; simpl; [reflexivity | apply IH]. Qed.

Lemma parse_digits_of (fuel : nat) : forall (n : N) (acc : string),
  (n < 2 ^ N.of_nat fuel)%N ->
  parse_decimal (digits_of fuel n acc)
  = (n * 10 ^ N.of_nat (String.length acc) + parse_decimal acc)%N.
Proof.
  unfold parse_decimal.
  induction fuel as [|fuel IH]; intros n acc H.
  - simpl in H. assert (n = 0%N) by lia. subst n. simpl. lia.
  - cbn [digits_of].
    assert (M : (n mod 10 < 10)%N) by (apply N.mod_lt; discriminate).
    pose proof (N.div_mod n 10 ltac:(discriminate)) as DM.
    destruct (n / 10 =? 0)%N eqn:Q.
    + apply N.eqb_eq in Q. cbn [parse_radix].
      rewrite parse_radix_acc, digit_val_digit_char by exact M. lia.
    + rewrite IH.
      * cbn [parse_radix String.length].
        rewrite (parse_radix_acc 10 digit_val acc (10 * 0 + _)%N).
        rewrite digit_val_digit_char by exact M.
        rewrite Nat2N.inj_succ, N.pow_succ_r'. lia.
      * rewrite Nat2N.inj_succ, N.pow_succ_r' in H.
        apply N.Div0.div_lt_upper_bound. lia.
Qed.

(** Reading the decimal numeral of [n] gives [n] back. *)
Lemma parse_decimal_of_N (n : N) : parse_decimal (decimal_of_N n) = n.
Proof.
  unfold decimal_of_N. rewrite parse_digits_of.
  - simpl. unfold parse_decimal. simpl. lia.
  - rewrite Nat2N.inj_succ, N2Nat.id.
    destruct n as [|p]; [reflexivity|].
    apply N.log2_spec. lia.
Qed.

Lemma decimal_of_N_inj (n1 n2 : N) : decimal_of_N n1 = decimal_of_N n2 -> n1 = n2.
Proof.
  intros E. rewrite <- (parse_decimal_of_N n1), <- (parse_decimal_of_N n2).
  now rewrite E.
Qed.

(** Two digit strings of one length with one value are one string. *)
Lemma parse_radix_digits_inj (s1 : string) : forall (s2 : string) (a1 a2 : N),
  all_chars is_digit s1 = true -> all_chars is_digit s2 = true ->
  String.length s1 = String.length s2 ->
  parse_radix 10 digit_val a1 s1 = parse_radix 10 digit_val a2 s2 ->
  a1 = a2 /\ s1 = s2.
Proof.
  induction s1 as [|c1 s1 IH]; intros [|c2 s2] a1 a2 D1 D2 L E;
    try discriminate L.
  - simpl in E. now split.
  - cbn [all_chars] in D1, D2. cbn [String.length] in L. cbn [parse_radix] in E.
    apply andb_true_iff in D1 as [C1 D1]; apply andb_true_iff in D2 as [C2 D2].
    destruct (IH s2 _ _ D1 D2 ltac:(lia) E) as [A S].
    pose proof (digit_val_lt c1 C1); pose proof (digit_val_lt c2 C2).
    assert (a1 = a2) by lia. subst a2.
    assert (digit_val c1 = digit_val c2) by lia.
    split; [reflexivity|]. f_equal; [now apply digit_val_inj | exact S].
Qed.

(** On a non-empty string of digits [BigNumber.from] reads the decimal
    value. *)
Lemma BigNumber_from_digits (s : string) :
  string_truthy s = true -> all_chars is_digit s = true ->
  BigNumber_from s = Returned (Z.of_N (parse_decimal s)).
Proof.
  intros T D. destruct s as [|c s]; [discriminate T|].
  simpl in D. apply andb_true_iff in D as [C D].
  assert (NM : c <> "-"%char) by now apply digit_not_minus.
  unfold BigNumber_from.
  assert (E : match String c s with
              | String "-"%char rest => (true, rest)
              | _ => (false, String c s)
              end = (false, String c s)).
  { destruct c as [[] [] [] [] [] [] [] []]; try reflexivity. now elim NM. }
  rewrite E.
  assert (F : string_truthy (String c s) && all_chars is_digit (String c s) = true)
    by (simpl; now rewrite C, D).
  destruct s as [|c' s'].
  - rewrite F. destruct c as [[] [] [] [] [] [] [] []]; reflexivity.
  - simpl in D. apply andb_true_iff in D as [C' D'].
    rewrite F, (digit_not_x c' C'). simpl.
    destruct c as [[] [] [] [] [] [] [] []]; reflexivity.
Qed.

(* ================================================================== *)
(** * Gene encoder *)

Lemma fold_left_append (l : list N) : forall acc : string,
  fold_left (fun genes dnaValue => genes ++ Number_toString dnaValue) l acc
  = acc ++ String.concat EmptyString (map Number_toString l).
Proof.
  assert (C : forall (x : string) (xs : list string),
             String.concat EmptyString (x :: xs) = x ++ String.concat EmptyString xs).
  { intros x [|y ys]; simpl; [now rewrite app_empty_r | reflexivity]. }
  induction l as [|v l IH]; intros acc.
  - simpl. now rewrite app_empty_r.
  - cbn [fold_left map]. rewrite IH, C. apply app_assoc_string.
Qed.

Lemma concat_cons (x : string) (xs : list string) :
  String.concat EmptyString (x :: xs) = x ++ String.concat EmptyString xs.
Proof. destruct xs as [|y ys]; simpl; [now rewrite app_empty_r | reflexivity]. Qed.

(** The string [convertDnaToGenes] hands to [BigNumber.from]. *)
Lemma genes_string (dna : DNA) :
  convertDnaToGenes dna = BigNumber_from (String.concat EmptyString (field_strings dna)).
Proof. unfold convertDnaToGenes. now rewrite fold_left_append. Qed.

Lemma field_strings_digits (dna : DNA) :
  all_chars is_digit (String.concat EmptyString (field_strings dna)) = true.
Proof.
  unfold field_strings. induction (Object_values dna) as [|v l IH]; [reflexivity|].
  cbn [map]. rewrite concat_cons, all_chars_app, IH.
  unfold Number_toString. now rewrite decimal_of_N_all_digits.
Qed.

Lemma field_strings_truthy (field : string * N) (dna : DNA) :
  string_truthy (String.concat EmptyString (field_strings (field :: dna))) = true.
Proof.
  unfold field_strings, Object_values. cbn [map]. rewrite concat_cons.
  apply string_truthy_app_l, decimal_of_N_truthy.
Qed.

Lemma convertDnaToGenes_value (field : string * N) (dna : DNA) :
  convertDnaToGenes (field :: dna)
  = Returned (Z.of_N (parse_decimal
                        (String.concat EmptyString (field_strings (field :: dna))))).
Proof.
  rewrite genes_string. apply BigNumber_from_digits.
  - apply field_strings_truthy.
  - apply field_strings_digits.
Qed.

Lemma app_inj_length (s1 : string) : forall (s2 t1 t2 : string),
  String.length s1 = String.length s2 -> s1 ++ t1 = s2 ++ t2 -> s1 = s2 /\ t1 = t2.
Proof.
  induction s1 as [|c s1 IH]; intros [|c2 s2] t1 t2 L E; try discriminate L.
  - now split.
  - simpl in L, E. injection E as -> E.
    destruct (IH s2 t1 t2 ltac:(lia) E) as [-> ->]. now split.
Qed.

Lemma concat_inj_widths (l1 l2 : list string) :
  Forall2 (fun s1 s2 => String.length s1 = String.length s2) l1 l2 ->
  String.concat EmptyString l1 = String.concat EmptyString l2 -> l1 = l2.
Proof.
  induction 1 as [|s1 s2 l1 l2 L _ IH]; intros E; [reflexivity|].
  rewrite !concat_cons in E.
  destruct (app_inj_length _ _ _ _ L E) as [-> E'].
  f_equal. now apply IH.
Qed.

Lemma concat_length_widths (l1 l2 : list string) :
  Forall2 (fun s1 s2 => String.length s1 = String.length s2) l1 l2 ->
  String.length (String.concat EmptyString l1)
  = String.length (String.concat EmptyString l2).
Proof.
  induction 1 as [|s1 s2 l1 l2 L _ IH]; [reflexivity|].
  rewrite !concat_cons, !length_app_string. lia.
Qed.

(** A record whose values pass the check is safe. *)
Lemma safe_dna_check (dna : DNA) :
  forallb (fun v => (v <=? MAX_SAFE_INTEGER)%N) (Object_values dna) = true ->
  safe_dna dna.
Proof.
  unfold safe_dna. intros H. apply Forall_forall. intros v I.
  rewrite forallb_forall in H. now apply N.leb_le, H.
Qed.

(** Claim C1, as stated, fails: the records [{a:1, b:23, c:4}] and
    [{a:12, b:3, c:4}] differ in the decimal strings of two fields, and
    [convertDnaToGenes] gives both the genes [1234]. *)
Lemma convertDnaToGenes_collision :
  safe_dna dna_1_23_4 /\ safe_dna dna_12_3_4
  /\ field_strings dna_1_23_4 <> field_strings dna_12_3_4
  /\ convertDnaToGenes dna_1_23_4 = Returned 1234%Z
  /\ convertDnaToGenes dna_12_3_4 = Returned 1234%Z.
Proof.
  split; [now apply safe_dna_check|]. split; [now apply safe_dna_check|].
  split; [discriminate | split; reflexivity].
Qed.

(** Claim C1, amended: two DNA records of safe integers whose corresponding
    fields are written with the same number of digits, and in which the decimal string
    of at least one field differs, are given different genes by
    [convertDnaToGenes]. *)
Theorem convertDnaToGenes_injective_same_widths (dna1 dna2 : DNA) :
  safe_dna dna1 -> safe_dna dna2 ->
  same_widths dna1 dna2 ->
  field_strings dna1 <> field_strings dna2 ->
  convertDnaToGenes dna1 <> convertDnaToGenes dna2.
Proof.
  intros _ _ W D E. apply D. apply concat_inj_widths; [exact W|].
  pose proof (concat_length_widths _ _ W) as L.
  destruct dna1 as [|f1 dna1], dna2 as [|f2 dna2].
  - reflexivity.
  - inversion W.
  - inversion W.
  - rewrite !convertDnaToGenes_value in E. injection E as E.
    apply N2Z.inj in E. unfold parse_decimal in E.
    now apply (parse_radix_digits_inj _ _ 0%N 0%N (field_strings_digits _)
                 (field_strings_digits _) L).
Qed.

Lemma convertDnaToGenes_injective_same_widths_witness :
  convertDnaToGenes [("a", 1%N); ("b", 23%N); ("c", 4%N)]
  <> convertDnaToGenes [("a", 1%N); ("b", 24%N); ("c", 4%N)].
Proof.
  apply convertDnaToGenes_injective_same_widths.
  - now apply safe_dna_check.
  - now apply safe_dna_check.
  - repeat constructor.
  - discriminate.
Defined.

(** Claim C2: for a record of safe integers [convertDnaToGenes] hands
    [BigNumber.from] the decimal strings of the fields, concatenated in property order with nothing between them;
    for a record with at least one field the result is the unsigned integer
    that string denotes; [{a:1, b:23, c:4}] gives [1234]; and equal records
    give equal genes. *)
Theorem convertDnaToGenes_concatenates_and_parses :
  (forall dna : DNA,
      safe_dna dna ->
      convertDnaToGenes dna
      = BigNumber_from (String.concat EmptyString
                          (map Number_toString (Object_values dna))))
  /\ (forall (field : string * N) (dna : DNA),
         safe_dna (field :: dna) ->
         convertDnaToGenes (field :: dna)
         = Returned (Z.of_N (parse_decimal
                               (String.concat EmptyString
                                  (map Number_toString
                                     (Object_values (field :: dna)))))))
  /\ convertDnaToGenes [("a", 1%N); ("b", 23%N); ("c", 4%N)] = Returned 1234%Z
  /\ (forall dna1 dna2 : DNA,
         dna1 = dna2 -> convertDnaToGenes dna1 = convertDnaToGenes dna2).
Proof.
  split; [intros dna _; apply genes_string|].
  split; [intros field dna _; apply convertDnaToGenes_value|].
  split; [reflexivity|].
  now intros dna1 dna2 ->.
Qed.

Lemma convertDnaToGenes_concatenates_and_parses_witness :
  convertDnaToGenes [("head", 10%N); ("eyes", 7%N)] = Returned 107%Z.
Proof.
  destruct convertDnaToGenes_concatenates_and_parses as (_ & H & _).
  rewrite H; [reflexivity | now apply safe_dna_check].
Defined.

(* ================================================================== *)
(** * Chain resolver *)

(** Claim C6: [useChainId] returns the chain identifier of [useEthers] when
    it is Mumbai or Polygon, and Mumbai for every other one and when there
    is none; being a function to chain identifiers, it raises nothing. *)
Theorem useChainId_total (ethers : Ethers) :
  (chainId ethers = Some Mumbai -> useChainId ethers = Mumbai)
  /\ (chainId ethers = Some Polygon -> useChainId ethers = Polygon)
  /\ (chainId ethers <> Some Mumbai -> chainId ethers <> Some Polygon ->
      useChainId ethers = Mumbai)
  /\ (chainId ethers = None -> useChainId ethers = Mumbai)
  /\ (useChainId ethers = Mumbai \/ useChainId ethers = Polygon).
Proof.
  unfold useChainId. destruct (chainId ethers) as [c|].
  - destruct (Z.eqb_spec c Mumbai) as [->|NM];
      [|destruct (Z.eqb_spec c Polygon) as [->|NP]];
      (split; [|split; [|split; [|split]]]);
      try (intros; congruence); try (now left); try (now right).
  - (split; [|split; [|split; [|split]]]);
      try (intros; congruence); now left.
Qed.

Lemma useChainId_total_witness :
  useChainId {| chainId := Some 1%Z; library := None; account := None |} = Mumbai.
Proof.
  destruct (useChainId_total {| chainId := Some 1%Z; library := None; account := None |})
    as (_ & _ & H & _).
  apply H; discriminate.
Defined.

(* ================================================================== *)
(** * Contract resolver *)

Lemma log_to_nil (w : World) : log_to w [] = w.
Proof. destruct w; unfold log_to; simpl; now rewrite app_nil_r. Qed.

Lemma log_to_app (w : World) (evs1 evs2 : list Event) :
  log_to (log_to w evs1) evs2 = log_to w (evs1 ++ evs2).
Proof. unfold log_to; simpl; now rewrite app_assoc. Qed.

(** [getContract] throws exactly on an address that is malformed or zero. *)
Lemma getContract_throws {imports : Imports} (address : string) (ABI : Interface)
    (library : Web3Provider) (account : option string) :
  (isAddress address = false \/ address = AddressZero) ->
  getContract address ABI library account
  = Thrown ("Invalid 'address' parameter '" ++ address ++ "'.").
Proof.
  unfold getContract. intros [H | ->].
  - now rewrite H.
  - now rewrite String.eqb_refl, orb_true_r.
Qed.

(** A run of [useContract] returns; it gives a contract, or it gives
    nothing silently, or it gives nothing and logs one diagnostic. *)
Lemma useContract_runs {imports : Imports} (ethers : Ethers)
    (address : option string) (ABI : option Interface)
    (withSignerIfPossible : option bool) (w : World) :
  (exists contract,
      useContract ethers address ABI withSignerIfPossible w = (Returned (Some contract), w))
  \/ useContract ethers address ABI withSignerIfPossible w = (Returned None, w)
  \/ (exists args,
         useContract ethers address ABI withSignerIfPossible w
         = (Returned None, log_to w [EvConsoleError args])).
Proof.
  unfold useContract.
  destruct address as [a|]; [|now right; left].
  destruct ABI as [i|]; [|now right; left].
  destruct (library ethers) as [l|]; [|now right; left].
  destruct (negb (string_truthy a) || String.eqb a AddressZero); [now right; left|].
  unfold try_catch, bind, lift, getContract.
  destruct (negb (isAddress a) || String.eqb a AddressZero).
  - right; right. eexists. reflexivity.
  - left. eexists. reflexivity.
Qed.

Lemma useContract_returns {imports : Imports} (ethers : Ethers)
    (address : option string) (ABI : option Interface)
    (withSignerIfPossible : option bool) (w : World) :
  exists contract,
    result (useContract ethers address ABI withSignerIfPossible w) = Returned contract.
Proof.
  destruct (useContract_runs ethers address ABI withSignerIfPossible w)
    as [[c E] | [E | [a E]]]; rewrite E; eexists; reflexivity.
Qed.

(* ================================================================== *)
(** * Read-value hooks *)

Ltac run_js :=
  cbv beta iota zeta delta
    [bind ret lift try_catch emit console_error read_toastRef write_toastRef
     useCall answered destructure log_to
     fst snd events toastRef toastCount value error].

Ltac no_throw H :=
  let R := fresh "R" in
  match type of H with
  | ?run = (Thrown _, _) =>
      exfalso;
      match run with
      | useKittyContract ?e ?s ?w =>
          destruct (useContract_returns e (kitty (CONTRACTS (useChainId e)))
                      (Some KittyContractInterface) s w) as [? R]
      | useMarketplaceContract ?e ?s ?w =>
          destruct (useContract_returns e (marketplace (CONTRACTS (useChainId e)))
                      (Some MarketplaceContractInterface) s w) as [? R]
      end;
      unfold useKittyContract, useMarketplaceContract in H;
      rewrite H in R; discriminate R
  end.

Lemma answer_run {imports : Imports} (call : Call) (w : World) :
  (r <- useCall (Some call) ;;
   let '(value, error) := destructure r in
   match error with
   | Some message => console_error [message]
   | None => ret tt
   end ;;
   ret (first_of value)) w
  = answered call w.
Proof.
  run_js. destruct (chain call) as [[v [m|]]|]; cbn [value error];
    try reflexivity.
  now rewrite <- app_assoc.
Qed.

Lemma useTotalSupply_run {imports : Imports} (ethers : Ethers) (w : World) :
  match useKittyContract ethers (Some false) w with
  | (Returned (Some contract), w1) =>
      useTotalSupply ethers w
      = answered {| call_contract := contract; call_method := "totalSupply";
                    call_args := [] |} w1
  | (Returned None, w1) => useTotalSupply ethers w = (Returned None, w1)
  | (Thrown _, _) => False
  end.
Proof.
  destruct (useKittyContract ethers (Some false) w) as [[[c|]|m] w1] eqn:E.
  - unfold useTotalSupply. unfold bind at 1. rewrite E. apply answer_run.
  - unfold useTotalSupply. unfold bind at 1. rewrite E. reflexivity.
  - no_throw E.
Qed.

Lemma useGen0Price_run {imports : Imports} (ethers : Ethers) (w : World) :
  match useKittyContract ethers (Some false) w with
  | (Returned (Some contract), w1) =>
      useGen0Price ethers w
      = answered {| call_contract := contract; call_method := "getGen0Price";
                    call_args := [] |} w1
  | (Returned None, w1) => useGen0Price ethers w = (Returned None, w1)
  | (Thrown _, _) => False
  end.
Proof.
  destruct (useKittyContract ethers (Some false) w) as [[[c|]|m] w1] eqn:E.
  - unfold useGen0Price. unfold bind at 1. rewrite E. apply answer_run.
  - unfold useGen0Price. unfold bind at 1. rewrite E. reflexivity.
  - no_throw E.
Qed.

Lemma useIsApprovedForAll_run {imports : Imports} (ethers : Ethers)
    (address : option string) (w : World) :
  match useKittyContract ethers None w with
  | (Returned (Some contract), w1) =>
      useIsApprovedForAll ethers address w
      = match address with
        | Some owner =>
            if string_truthy owner
            then answered {| call_contract := contract;
                             call_method := "isApprovedForAll";
                             call_args :=
                               [Some (VString owner);
                                option_map VString
                                  (marketplace (CONTRACTS (useChainId ethers)))] |} w1
            else (Returned None, w1)
        | None => (Returned None, w1)
        end
  | (Returned None, w1) => useIsApprovedForAll ethers address w = (Returned None, w1)
  | (Thrown _, _) => False
  end.
Proof.
  destruct (useKittyContract ethers None w) as [[[c|]|m] w1] eqn:E.
  - unfold useIsApprovedForAll. unfold bind at 1. rewrite E.
    destruct address as [a|]; [|reflexivity].
    unfold opt_string_truthy. destruct (string_truthy a); [|reflexivity].
    apply answer_run.
  - unfold useIsApprovedForAll. unfold bind at 1. rewrite E.
    destruct address as [a|]; [|reflexivity].
    unfold opt_string_truthy. destruct (string_truthy a); reflexivity.
  - no_throw E.
Qed.

(** Claim C9, as stated, fails: with the kitty contract resolved and no
    owner address, [useIsApprovedForAll] issues no call. *)
Lemma useIsApprovedForAll_no_owner_no_call :
  useKittyContract (imports := sample_Imports) sample_Ethers None initial_World
  = (Returned (Some (new_Contract kitty_address KittyContractInterface
                       (of_signer (provider 1)
                          "0x00000000000000000000000000000000000000c3"))),
     initial_World)
  /\ useIsApprovedForAll (imports := sample_Imports) sample_Ethers None initial_World
     = (Returned None, initial_World).
Proof. split; reflexivity. Qed.

(** Claim C9, amended: [useTotalSupply] and [useGen0Price] issue one
    read-only call against the resolved kitty contract, and no call when
    there is no contract; [useIsApprovedForAll] issues its call when there
    is a contract and a non-empty owner address, and no call otherwise.  A
    hook that issues no call returns [undefined].  A hook that issues its
    call logs it, logs the message of the answer's error if it has one, and
    returns the first value of the answer, [undefined] if there is none; it
    throws in no case. *)
Theorem read_hooks_call_and_first_value {imports : Imports} (ethers : Ethers) (w : World) :
  (forall w1 : World,
      useKittyContract ethers (Some false) w = (Returned None, w1) ->
      useTotalSupply ethers w = (Returned None, w1)
      /\ useGen0Price ethers w = (Returned None, w1))
  /\ (forall (contract : Contract) (w1 : World),
         useKittyContract ethers (Some false) w = (Returned (Some contract), w1) ->
         useTotalSupply ethers w
         = answered {| call_contract := contract; call_method := "totalSupply";
                       call_args := [] |} w1
         /\ useGen0Price ethers w
            = answered {| call_contract := contract; call_method := "getGen0Price";
                          call_args := [] |} w1)
  /\ (forall (owner : option string) (w1 : World),
         useKittyContract ethers None w = (Returned None, w1) ->
         useIsApprovedForAll ethers owner w = (Returned None, w1))
  /\ (forall (owner : option string) (contract : Contract) (w1 : World),
         useKittyContract ethers None w = (Returned (Some contract), w1) ->
         opt_string_truthy owner = false ->
         useIsApprovedForAll ethers owner w = (Returned None, w1))
  /\ (forall (owner : string) (contract : Contract) (w1 : World),
         useKittyContract ethers None w = (Returned (Some contract), w1) ->
         string_truthy owner = true ->
         useIsApprovedForAll ethers (Some owner) w
         = answered {| call_contract := contract; call_method := "isApprovedForAll";
                       call_args :=
                         [Some (VString owner);
                          option_map VString
                            (marketplace (CONTRACTS (useChainId ethers)))] |} w1)
  /\ (forall (call : Call) (w1 : World) (message : string),
         chain call = Some {| value := None; error := Some message |} ->
         answered call w1
         = (Returned None, log_to w1 [EvCall call; EvConsoleError [message]]))
  /\ (forall (call : Call) (w1 : World) (v : JsValue) (vs : list JsValue),
         chain call = Some {| value := Some (v :: vs); error := None |} ->
         answered call w1 = (Returned (Some v), log_to w1 [EvCall call])).
Proof.
  split; [|split; [|split; [|split; [|split; [|split]]]]].
  - intros w1 E. split.
    + pose proof (useTotalSupply_run ethers w) as R. now rewrite E in R.
    + pose proof (useGen0Price_run ethers w) as R. now rewrite E in R.
  - intros c w1 E. split.
    + pose proof (useTotalSupply_run ethers w) as R. now rewrite E in R.
    + pose proof (useGen0Price_run ethers w) as R. now rewrite E in R.
  - intros owner w1 E.
    pose proof (useIsApprovedForAll_run ethers owner w) as R. now rewrite E in R.
  - intros owner c w1 E F.
    pose proof (useIsApprovedForAll_run ethers owner w) as R. rewrite E in R.
    rewrite R. destruct owner as [a|]; [|reflexivity]. simpl in F. now rewrite F.
  - intros owner c w1 E T.
    pose proof (useIsApprovedForAll_run ethers (Some owner) w) as R. rewrite E in R.
    now rewrite R, T.
  - intros call w1 message E. unfold answered. now rewrite E.
  - intros call w1 v vs E. unfold answered. now rewrite E.
Qed.

Lemma read_hooks_call_and_first_value_witness :
  useGen0Price (imports := sample_Imports) sample_Ethers initial_World
  = (Returned (Some (VBigNumber 5)),
     log_to initial_World
       [EvCall {| call_contract :=
                    new_Contract kitty_address KittyContractInterface
                      (of_provider (provider 1));
                  call_method := "getGen0Price"; call_args := [] |}]).
Proof.
  destruct (read_hooks_call_and_first_value (imports := sample_Imports)
              sample_Ethers initial_World) as (_ & H & _ & _ & _ & _ & A).
  destruct (H (new_Contract kitty_address KittyContractInterface
                 (of_provider (provider 1))) initial_World eq_refl) as [_ G].
  rewrite G. apply (A _ _ (VBigNumber 5) []). reflexivity.
Defined.

(* ================================================================== *)
(** * Notification adapter *)

Lemma issued_id_truthy (id : string) (count : N) :
  string_truthy (issued_id id count) = true.
Proof.
  unfold issued_id. destruct (string_truthy id) eqn:T; [exact T|].
  apply decimal_of_N_truthy.
Qed.

(** A notification issued under the identity of an earlier one keeps it. *)
Lemma issued_id_kept (id : string) (count count' : N) :
  issued_id (issued_id id count) count' = issued_id id count.
Proof. unfold issued_id at 1. now rewrite issued_id_truthy. Qed.

(** Issuing a notification under the current handle and storing what
    [toast] returns. *)
Lemma notify_run (kind : ToastKind) (message : string) (duration : option Z) (w : World) :
  (current <- read_toastRef ;;
   toastId <- toast kind message current duration ;;
   write_toastRef toastId) w
  = (Returned tt, notified w kind message duration).
Proof.
  destruct w as [evs handle count deps].
  unfold toast, genId, notified, issued_id, bind, read_toastRef.
  cbn [toastRef toastCount events].
  destruct (string_truthy handle); reflexivity.
Qed.

(** What one run of the effect does, status by status. *)
Lemma useContractNotification_run (status : Status)
    (errorMessage miningMessage successMessage : string) (w : World) :
  useContractNotification (emit EvResetState) status
    errorMessage miningMessage successMessage w
  = (Returned tt,
     match status with
     | Exception | Fail =>
         if string_truthy errorMessage
         then notified (log_to w [EvResetState]) toast_error errorMessage (Some 6000%Z)
         else log_to w [EvResetState]
     | Mining =>
         if string_truthy miningMessage
         then notified w toast_loading miningMessage None
         else w
     | Success =>
         if string_truthy successMessage
         then notified (log_to w [EvResetState]) toast_success successMessage (Some 6000%Z)
         else log_to w [EvResetState]
     | StatusNone | PendingSignature => w
     end).
Proof.
  destruct status; cbn [useContractNotification]; try reflexivity.
  - destruct (string_truthy miningMessage); [apply notify_run | reflexivity].
  - unfold bind at 1. cbn [emit]. fold (log_to w [EvResetState]).
    destruct (string_truthy successMessage); [apply notify_run | reflexivity].
  - unfold bind at 1. cbn [emit]. fold (log_to w [EvResetState]).
    destruct (string_truthy errorMessage); [apply notify_run | reflexivity].
  - unfold bind at 1. cbn [emit]. fold (log_to w [EvResetState]).
    destruct (string_truthy errorMessage); [apply notify_run | reflexivity].
Qed.

(** Claim C3, as stated, fails: on Mining with no mining message configured
    the adapter shows nothing. *)
Lemma useContractNotification_mining_unconfigured :
  useContractNotification (emit EvResetState) Mining "failed" EmptyString "done"
    initial_World
  = (Returned tt, initial_World).
Proof. reflexivity. Qed.

(** Claim C3, amended: on Exception or Fail [useContractNotification] first
    resets the action's state and then, if the error message is non-empty,
    shows an error notification of 6000ms under the current handle; on
    Mining, if the mining message is non-empty, it shows a loading
    notification with no duration under the current handle, and does
    nothing otherwise; on Success it resets the state and then, if the
    success message is non-empty, shows a success notification of 6000ms
    under the current handle; on None and PendingSignature it issues no
    notification and does not reset the state.  Each notification shown
    becomes the handle. *)
Theorem useContractNotification_by_status (status : Status)
    (errorMessage miningMessage successMessage : string) (w : World) :
  useContractNotification (emit EvResetState) status
    errorMessage miningMessage successMessage w
  = (Returned tt,
     match status with
     | Exception | Fail =>
         if string_truthy errorMessage
         then notified (log_to w [EvResetState]) toast_error errorMessage (Some 6000%Z)
         else log_to w [EvResetState]
     | Mining =>
         if string_truthy miningMessage
         then notified w toast_loading miningMessage None
         else w
     | Success =>
         if string_truthy successMessage
         then notified (log_to w [EvResetState]) toast_success successMessage (Some 6000%Z)
         else log_to w [EvResetState]
     | StatusNone | PendingSignature => w
     end).
Proof. apply useContractNotification_run. Qed.

Lemma under_handle_app (new1 : list Event) : forall (handle : string) (new2 : list Event),
  under_handle handle new1 -> under_handle (handle_after handle new1) new2 ->
  under_handle handle (new1 ++ new2)%list.
Proof.
  induction new1 as [|e new1 IH]; intros handle new2 H1 H2; [exact H2|].
  destruct e; cbn [app under_handle handle_after] in *; try now apply IH.
  destruct H1 as [E H1]. split; [exact E | now apply IH].
Qed.

Lemma handle_after_app (new1 : list Event) : forall (handle : string) (new2 : list Event),
  handle_after handle (new1 ++ new2)%list = handle_after (handle_after handle new1) new2.
Proof.
  induction new1 as [|e new1 IH]; intros handle new2; [reflexivity|].
  destruct e; cbn [app handle_after]; apply IH.
Qed.

Lemma extends_refl (w : World) : extends w w [].
Proof. unfold extends. simpl. now rewrite app_nil_r. Qed.

Lemma extends_trans (w w1 w2 : World) (new1 new2 : list Event) :
  extends w w1 new1 -> extends w1 w2 new2 -> extends w w2 (new1 ++ new2)%list.
Proof.
  intros (E1 & U1 & H1) (E2 & U2 & H2). unfold extends.
  rewrite E2, E1, app_assoc, handle_after_app, H2, H1.
  repeat split. apply under_handle_app; [exact U1 | now rewrite <- H1].
Qed.

Lemma extends_reset (w : World) : extends w (log_to w [EvResetState]) [EvResetState].
Proof. unfold extends. simpl. auto. Qed.

Lemma extends_notified (w : World) (kind : ToastKind) (message : string)
    (duration : option Z) :
  extends w (notified w kind message duration)
    [EvToast {| toast_kind := kind; toast_message := message;
                toast_opts_id := toastRef w; toast_duration := duration;
                toast_id := issued_id (toastRef w) (toastCount w) |}].
Proof. unfold extends. simpl. auto. Qed.

(** One run of the effect keeps the handle discipline. *)
Lemma useContractNotification_extends (status : Status)
    (errorMessage miningMessage successMessage : string) (w : World) :
  exists (w' : World) (new : list Event),
    useContractNotification (emit EvResetState) status
      errorMessage miningMessage successMessage w = (Returned tt, w')
    /\ extends w w' new.
Proof.
  rewrite useContractNotification_run.
  destruct status.
  - exists w, []. split; [reflexivity | apply extends_refl].
  - exists w, []. split; [reflexivity | apply extends_refl].
  - destruct (string_truthy miningMessage); eexists; eexists.
    + split; [reflexivity | apply extends_notified].
    + split; [reflexivity | apply extends_refl].
  - destruct (string_truthy successMessage); eexists; eexists.
    + split; [reflexivity|].
      eapply extends_trans; [apply extends_reset | apply extends_notified].
    + split; [reflexivity | apply extends_reset].
  - destruct (string_truthy errorMessage); eexists; eexists.
    + split; [reflexivity|].
      eapply extends_trans; [apply extends_reset | apply extends_notified].
    + split; [reflexivity | apply extends_reset].
  - destruct (string_truthy errorMessage); eexists; eexists.
    + split; [reflexivity|].
      eapply extends_trans; [apply extends_reset | apply extends_notified].
    + split; [reflexivity | apply extends_reset].
Qed.

Lemma observe_extends (errorMessage miningMessage successMessage : string)
    (statuses : list Status) : forall w : World,
  exists (w' : World) (new : list Event),
    observe (emit EvResetState) errorMessage miningMessage successMessage statuses w
    = (Returned tt, w')
    /\ extends w w' new.
Proof.
  induction statuses as [|status statuses IH]; intros w.
  - exists w, []. split; [reflexivity | apply extends_refl].
  - destruct (useContractNotification_extends status errorMessage miningMessage
                successMessage w) as (w1 & new1 & R1 & X1).
    destruct (IH w1) as (w2 & new2 & R2 & X2).
    exists w2, (new1 ++ new2)%list. split.
    + cbn [observe]. unfold bind. now rewrite R1.
    + eapply extends_trans; eassumption.
Qed.

Lemma observe_mining_success (errorMessage miningMessage successMessage : string)
    (w : World) :
  string_truthy miningMessage = true -> string_truthy successMessage = true ->
  trace (observe (emit EvResetState) errorMessage miningMessage successMessage
           [Mining; Success] w)
  = (events w
    ++ [EvToast {| toast_kind := toast_loading; toast_message := miningMessage;
                   toast_opts_id := toastRef w; toast_duration := None;
                   toast_id := issued_id (toastRef w) (toastCount w) |};
        EvResetState;
        EvToast {| toast_kind := toast_success; toast_message := successMessage;
                   toast_opts_id := issued_id (toastRef w) (toastCount w);
                   toast_duration := Some 6000%Z;
                   toast_id := issued_id (toastRef w) (toastCount w) |}])%list.
Proof.
  intros M S. cbn [observe]. unfold bind at 1.
  rewrite useContractNotification_run, M. unfold bind at 1.
  rewrite useContractNotification_run, S.
  unfold trace, ret, notified, log_to. cbn [snd events toastRef toastCount].
  rewrite issued_id_kept, <- !app_assoc. reflexivity.
Qed.

(** Claim C8, as stated, fails: with no mining message configured the
    statuses [Mining, Success] issue one notification. *)
Lemma observe_mining_success_unconfigured :
  trace (observe (emit EvResetState) "failed" EmptyString "done"
           [Mining; Success] initial_World)
  = [EvResetState;
     EvToast {| toast_kind := toast_success; toast_message := "done";
                toast_opts_id := EmptyString; toast_duration := Some 6000%Z;
                toast_id := "1" |}].
Proof. reflexivity. Qed.

(** Claim C8, amended: over every sequence of statuses, every notification
    [useContractNotification] issues is issued under the handle as it
    stands, and the handle is then the identity of that notification; for
    the statuses [Mining, Success], when the mining and the success message
    are non-empty, exactly two notifications are issued, and the second is
    issued under the identity of the first and keeps it. *)
Theorem observe_under_handle (errorMessage miningMessage successMessage : string)
    (statuses : list Status) (w : World) :
  (exists (w' : World) (new : list Event),
      observe (emit EvResetState) errorMessage miningMessage successMessage statuses w
      = (Returned tt, w')
      /\ events w' = (events w ++ new)%list
      /\ under_handle (toastRef w) new
      /\ toastRef w' = handle_after (toastRef w) new)
  /\ (string_truthy miningMessage = true -> string_truthy successMessage = true ->
      trace (observe (emit EvResetState) errorMessage miningMessage successMessage
               [Mining; Success] w)
      = (events w
        ++ [EvToast {| toast_kind := toast_loading; toast_message := miningMessage;
                       toast_opts_id := toastRef w; toast_duration := None;
                       toast_id := issued_id (toastRef w) (toastCount w) |};
            EvResetState;
            EvToast {| toast_kind := toast_success; toast_message := successMessage;
                       toast_opts_id := issued_id (toastRef w) (toastCount w);
                       toast_duration := Some 6000%Z;
                       toast_id := issued_id (toastRef w) (toastCount w) |}])%list).
Proof.
  split.
  - destruct (observe_extends errorMessage miningMessage successMessage statuses w)
      as (w' & new & R & X).
    exists w', new. split; [exact R | exact X].
  - apply observe_mining_success.
Qed.

Lemma observe_under_handle_witness :
  trace (observe (emit EvResetState) "failed" "mining" "done"
           [Mining; Success] initial_World)
  = [EvToast {| toast_kind := toast_loading; toast_message := "mining";
                toast_opts_id := EmptyString; toast_duration := None;
                toast_id := "1" |};
     EvResetState;
     EvToast {| toast_kind := toast_success; toast_message := "done";
                toast_opts_id := "1"; toast_duration := Some 6000%Z;
                toast_id := "1" |}].
Proof.
  destruct (observe_under_handle "failed" "mining" "done" [] initial_World) as [_ H].
  apply (H eq_refl eq_refl).
Defined.

(* ================================================================== *)
(** * Action hooks *)

Lemma send_run (f : ContractFunction) (args : list (option JsValue))
    (value : option JsValue) (w : World) :
  send f args value w
  = (Returned (transaction f args value), log_to w [EvSend (transaction f args value)]).
Proof. reflexivity. Qed.

(** Claim C4, as stated, fails: [onBreed] with no [momId] sends. *)
Lemma onBreed_unguarded :
  onBreed sample_breed None (Some (VNumber 2)) initial_World
  = (Returned (Some (transaction sample_breed [None; Some (VNumber 2)] None)),
     log_to initial_World
       [EvSend (transaction sample_breed [None; Some (VNumber 2)] None)]).
Proof. reflexivity. Qed.

(** Claim C4, amended: the callables of approve-all, create-listing,
    remove-listing, create-Gen0 and buy check their required arguments, and
    when one of them is absent they perform no send, return nothing and
    raise nothing; the callable of breed has no check and forwards its two
    arguments to send as they are. *)
Theorem guarded_actions_inert {imports : Imports} (f : ContractFunction) (w : World) :
  (forall approved : option bool, onApprove f None approved w = (Returned None, w))
  /\ (forall address : option string, onApprove f address None w = (Returned None, w))
  /\ (forall tokenId : option BigNumberish,
         onCreateListing f None tokenId w = (Returned None, w))
  /\ (forall price : option string, onCreateListing f price None w = (Returned None, w))
  /\ onRemoveListing f None w = (Returned None, w)
  /\ (forall genes : BigNumber, onCreate f None genes w = (Returned None, w))
  /\ (forall tokenId : option BigNumberish, onBuy f None tokenId w = (Returned None, w))
  /\ (forall price : option BigNumberish, onBuy f price None w = (Returned None, w))
  /\ (forall momId dadId : option BigNumberish,
         onBreed f momId dadId w
         = (Returned (Some (transaction f [momId; dadId] None)),
            log_to w [EvSend (transaction f [momId; dadId] None)])).
Proof.
  repeat match goal with |- _ /\ _ => split end; try reflexivity.
  - intros [a|]; reflexivity.
  - intros [p|]; [|reflexivity]. unfold onCreateListing.
    now rewrite orb_true_r.
  - intros tokenId. unfold onBuy. now rewrite orb_true_r.
Qed.

(** Claim C5: with its required arguments present every callable forwards
    to [send] exactly once.  The callables of approve-all, create-listing,
    remove-listing, create-Gen0 and breed return the promise of that send;
    [onBuy] sends and returns [undefined]. *)
Theorem actions_send_once {imports : Imports} (f : ContractFunction) (w : World) :
  (forall (address : string) (approved : bool),
      string_truthy address = true ->
      onApprove f (Some address) (Some approved) w
      = (Returned (Some (transaction f [Some (VString address); Some (VBool approved)] None)),
         log_to w [EvSend (transaction f [Some (VString address); Some (VBool approved)]
                             None)]))
  /\ (forall (price : string) (tokenId : BigNumberish) (wei : Z),
         string_truthy price = true -> truthy tokenId = true ->
         parseEther price = Returned wei ->
         onCreateListing f (Some price) (Some tokenId) w
         = (Returned (Some (transaction f [Some (VBigNumber wei); Some tokenId] None)),
            log_to w [EvSend (transaction f [Some (VBigNumber wei); Some tokenId] None)]))
  /\ (forall tokenId : BigNumberish,
         truthy tokenId = true ->
         onRemoveListing f (Some tokenId) w
         = (Returned (Some (transaction f [Some tokenId] None)),
            log_to w [EvSend (transaction f [Some tokenId] None)]))
  /\ (forall (gen0Price : JsValue) (genes : BigNumber),
         truthy gen0Price = true ->
         onCreate f (Some gen0Price) genes w
         = (Returned (Some (transaction f [Some (VBigNumber genes)] (Some gen0Price))),
            log_to w [EvSend (transaction f [Some (VBigNumber genes)] (Some gen0Price))]))
  /\ (forall momId dadId : BigNumberish,
         onBreed f (Some momId) (Some dadId) w
         = (Returned (Some (transaction f [Some momId; Some dadId] None)),
            log_to w [EvSend (transaction f [Some momId; Some dadId] None)]))
  /\ (forall price tokenId : BigNumberish,
         truthy price = true -> truthy tokenId = true ->
         onBuy f (Some price) (Some tokenId) w
         = (Returned None,
            log_to w [EvSend (transaction f [Some tokenId] (Some price))])).
Proof.
  repeat match goal with |- _ /\ _ => split end.
  - intros address approved T. unfold onApprove. now rewrite T.
  - intros price tokenId wei P T E. unfold onCreateListing, opt_truthy.
    rewrite P, T. cbn [negb orb]. unfold bind at 1, lift. now rewrite E.
  - intros tokenId T. unfold onRemoveListing, opt_truthy. now rewrite T.
  - intros gen0Price genes T. unfold onCreate, opt_truthy. now rewrite T.
  - reflexivity.
  - intros price tokenId P T. unfold onBuy, opt_truthy. now rewrite P, T.
Qed.

Lemma actions_send_once_witness :
  onBuy sample_buy (Some (VNumber 5)) (Some (VNumber 7)) initial_World
  = (Returned None,
     log_to initial_World
       [EvSend (transaction sample_buy [Some (VNumber 7)] (Some (VNumber 5)))]).
Proof.
  destruct (actions_send_once (imports := sample_Imports) sample_buy initial_World)
    as (_ & _ & _ & _ & _ & H).
  apply H; reflexivity.
Defined.




(* ================================================================== *)
(** * Further properties of the gene encoder *)

Lemma parse_decimal_app (s1 s2 : string) :
  parse_decimal (s1 ++ s2)
  = (parse_decimal s1 * 10 ^ N.of_nat (String.length s2) + parse_decimal s2)%N.
Proof.
  unfold parse_decimal. rewrite parse_radix_app. apply parse_radix_acc.
Qed.

(** A record with one trait, a safe integer, is encoded as the value of
    the trait. *)
Theorem convertDnaToGenes_single_field (name : string) (n : N) :
  (n <= MAX_SAFE_INTEGER)%N ->
  convertDnaToGenes [(name, n)] = Returned (Z.of_N n).
Proof.
  intros _. rewrite convertDnaToGenes_value. unfold field_strings, Object_values.
  cbn [map snd]. rewrite concat_cons. cbn [String.concat].
  rewrite app_empty_r. unfold Number_toString. now rewrite parse_decimal_of_N.
Qed.

Lemma convertDnaToGenes_single_field_witness :
  convertDnaToGenes [("head", 42%N)] = Returned 42%Z.
Proof. apply convertDnaToGenes_single_field. discriminate. Defined.

(** [convertDnaToGenes] returns exactly on the records that have a field;
    on the record without fields [BigNumber.from] is handed the empty
    string and throws. *)
Theorem convertDnaToGenes_returns_iff (dna : DNA) :
  safe_dna dna ->
  ((exists genes : BigNumber, convertDnaToGenes dna = Returned genes) <-> dna <> [])
  /\ convertDnaToGenes [] = Thrown "invalid BigNumber string".
Proof.
  intros _. split; [|reflexivity]. split.
  - intros [genes E] ->. discriminate E.
  - intros NE. destruct dna as [|field dna]; [now elim NE|].
    eexists. apply convertDnaToGenes_value.
Qed.

Lemma convertDnaToGenes_returns_iff_witness :
  exists genes : BigNumber, convertDnaToGenes dna_1_23_4 = Returned genes.
Proof.
  destruct (convertDnaToGenes_returns_iff dna_1_23_4) as [[_ H] _].
  - now apply safe_dna_check.
  - apply H. discriminate.
Defined.

(** The genes are positional: a field in front of a record shifts the
    genes of the record by the number of digits the record is written with,
    and adds its own value in front. *)
Theorem convertDnaToGenes_positional (first next : string * N) (dna : DNA) :
  safe_dna (first :: next :: dna) ->
  match convertDnaToGenes (next :: dna) with
  | Returned rest =>
      convertDnaToGenes (first :: next :: dna)
      = Returned (Z.of_N (snd first)
                  * 10 ^ Z.of_nat (String.length
                                     (String.concat EmptyString
                                        (field_strings (next :: dna))))
                  + rest)%Z
  | Thrown _ => False
  end.
Proof.
  intros _.
  rewrite (convertDnaToGenes_value next dna), (convertDnaToGenes_value first).
  f_equal. unfold field_strings at 1. unfold Object_values at 1. cbn [map].
  rewrite concat_cons. fold (Object_values (next :: dna)).
  fold (field_strings (next :: dna)).
  rewrite parse_decimal_app. unfold Number_toString. rewrite parse_decimal_of_N.
  rewrite N2Z.inj_add, N2Z.inj_mul, N2Z.inj_pow, nat_N_Z. reflexivity.
Qed.

Lemma convertDnaToGenes_shift (first next : string * N) (dna : DNA) :
  match convertDnaToGenes (next :: dna) with
  | Returned rest =>
      convertDnaToGenes (first :: next :: dna)
      = Returned (Z.of_N (snd first)
                  * 10 ^ Z.of_nat (String.length
                                     (String.concat EmptyString
                                        (field_strings (next :: dna))))
                  + rest)%Z
  | Thrown _ => False
  end.
Proof.
  rewrite (convertDnaToGenes_value next dna), (convertDnaToGenes_value first).
  f_equal. unfold field_strings at 1. unfold Object_values at 1. cbn [map].
  rewrite concat_cons. fold (Object_values (next :: dna)).
  fold (field_strings (next :: dna)).
  rewrite parse_decimal_app. unfold Number_toString. rewrite parse_decimal_of_N.
  rewrite N2Z.inj_add, N2Z.inj_mul, N2Z.inj_pow, nat_N_Z. reflexivity.
Qed.

Lemma convertDnaToGenes_positional_witness :
  convertDnaToGenes [("a", 5%N); ("b", 23%N); ("c", 4%N)]
  = Returned (5 * 10 ^ 3 + 234)%Z.
Proof.
  pose proof (convertDnaToGenes_positional ("a", 5%N) ("b", 23%N) [("c", 4%N)]) as P.
  apply P. now apply safe_dna_check.
Defined.

(** A leading field of value zero leaves no trace in the genes. *)
Theorem convertDnaToGenes_leading_zero (name : string) (next : string * N) (dna : DNA) :
  safe_dna (next :: dna) ->
  convertDnaToGenes ((name, 0%N) :: next :: dna) = convertDnaToGenes (next :: dna).
Proof.
  intros _. pose proof (convertDnaToGenes_shift (name, 0%N) next dna) as P.
  destruct (convertDnaToGenes (next :: dna)) as [rest|]; [|contradiction].
  rewrite P. cbn [snd]. f_equal.
Qed.

Lemma convertDnaToGenes_leading_zero_witness :
  convertDnaToGenes [("z", 0%N); ("b", 23%N); ("c", 4%N)]
  = convertDnaToGenes [("b", 23%N); ("c", 4%N)].
Proof. apply convertDnaToGenes_leading_zero. now apply safe_dna_check. Defined.

(* ================================================================== *)
(** * Further properties of the contract resolver *)

Lemma getProviderOrSigner_bound (ethers : Ethers) (withSignerIfPossible : option bool)
    (library : Web3Provider) :
  getProviderOrSigner library
    (if default_true withSignerIfPossible && opt_string_truthy (account ethers)
     then account ethers else None)
  = bound_to ethers withSignerIfPossible library.
Proof.
  unfold bound_to, getProviderOrSigner, getSigner, opt_string_truthy.
  destruct (account ethers) as [a|]; [|now rewrite andb_false_r].
  destruct (default_true withSignerIfPossible), (string_truthy a) eqn:T;
    cbn [andb]; try reflexivity.
  now rewrite T.
Qed.

Lemma useChainId_known (ethers : Ethers) :
  useChainId ethers = Mumbai \/ useChainId ethers = Polygon.
Proof.
  unfold useChainId. destruct (chainId ethers) as [c|]; [|now left].
  destruct (Z.eqb_spec c Mumbai) as [->|_]; [now left|].
  destruct (Z.eqb_spec c Polygon) as [->|_]; [now right | now left].
Qed.

Lemma useContract_some_iff {imports : Imports} (ethers : Ethers)
    (address : option string) (ABI : option Interface)
    (withSignerIfPossible : option bool) (w w1 : World) (contract : Contract) :
  useContract ethers address ABI withSignerIfPossible w = (Returned (Some contract), w1)
  <-> (exists (a : string) (i : Interface) (l : Web3Provider),
          address = Some a /\ ABI = Some i /\ library ethers = Some l
          /\ string_truthy a = true /\ a <> AddressZero /\ isAddress a = true
          /\ contract = new_Contract a i (bound_to ethers withSignerIfPossible l)
          /\ w1 = w).
Proof.
  unfold useContract. split.
  - destruct address as [a|]; [|discriminate].
    destruct ABI as [i|]; [|discriminate].
    destruct (library ethers) as [l|]; [|discriminate].
    destruct (string_truthy a) eqn:T; [|discriminate]. cbn [negb orb].
    destruct (String.eqb_spec a AddressZero) as [E|NE]; [discriminate|].
    unfold try_catch, bind, lift, getContract.
    destruct (isAddress a) eqn:IA; cbn [negb orb].
    + apply String.eqb_neq in NE. rewrite NE.
      rewrite getProviderOrSigner_bound. intros [= <- <-].
      exists a, i, l. apply String.eqb_neq in NE. repeat split; auto.
    + discriminate.
  - intros (a & i & l & -> & -> & L & T & NZ & IA & -> & ->).
    rewrite L, T. apply String.eqb_neq in NZ. rewrite NZ. cbn [negb orb].
    unfold try_catch, bind, lift, getContract.
    rewrite IA, NZ. cbn [negb orb]. now rewrite getProviderOrSigner_bound.
Qed.

(** [useContract] gives a contract exactly when the address is non-empty,
    well-formed and not the zero address and the ABI and the library are
    there; the contract is then the one of that address and ABI, bound to
    the signer of the connected account when [withSignerIfPossible] is not
    [false] and an account is connected, and to the provider otherwise;
    nothing is logged. *)
Theorem useContract_contract_iff {imports : Imports} (ethers : Ethers)
    (address : option string) (ABI : option Interface)
    (withSignerIfPossible : option bool) (w w1 : World) (contract : Contract) :
  useContract ethers address ABI withSignerIfPossible w = (Returned (Some contract), w1)
  <-> (exists (a : string) (i : Interface) (l : Web3Provider),
          address = Some a /\ ABI = Some i /\ library ethers = Some l
          /\ string_truthy a = true /\ a <> AddressZero /\ isAddress a = true
          /\ contract = new_Contract a i (bound_to ethers withSignerIfPossible l)
          /\ w1 = w).
Proof. apply useContract_some_iff. Qed.

(** The kitty contract the read-only hooks resolve, with
    [withSignerIfPossible] false, is bound to the provider whatever account
    is connected; resolved by default it is bound to the signer of the
    connected account, if there is one. *)
Theorem useKittyContract_runner {imports : Imports} (ethers : Ethers) (w w1 : World)
    (contract : Contract) :
  (useKittyContract ethers (Some false) w = (Returned (Some contract), w1) ->
   exists l : Web3Provider,
     library ethers = Some l /\ signerOrProvider contract = of_provider l)
  /\ (forall connected : string,
         useKittyContract ethers None w = (Returned (Some contract), w1) ->
         account ethers = Some connected -> string_truthy connected = true ->
         exists l : Web3Provider,
           library ethers = Some l /\ signerOrProvider contract = of_signer l connected).
Proof.
  unfold useKittyContract. split.
  - intros E. apply useContract_some_iff in E
      as (a & i & l & _ & _ & L & _ & _ & _ & -> & _).
    exists l. split; [exact L|]. unfold bound_to. cbn [signerOrProvider default_true].
    destruct (account ethers); reflexivity.
  - intros acc E A T. apply useContract_some_iff in E
      as (a & i & l & _ & _ & L & _ & _ & _ & -> & _).
    exists l. split; [exact L|]. unfold bound_to. cbn [signerOrProvider default_true].
    now rewrite A, T.
Qed.

Lemma useKittyContract_runner_witness :
  exists l : Web3Provider,
    library sample_Ethers = Some l
    /\ signerOrProvider (new_Contract kitty_address KittyContractInterface
                           (of_provider (provider 1))) = of_provider l.
Proof.
  destruct (useKittyContract_runner (imports := sample_Imports) sample_Ethers
              initial_World initial_World
              (new_Contract kitty_address KittyContractInterface
                 (of_provider (provider 1)))) as [H _].
  apply H. reflexivity.
Defined.

(** The contracts the hooks resolve are the kitty and the marketplace
    contract the configuration names for Mumbai or for Polygon, each with
    its own ABI, and resolving them logs nothing. *)
Theorem resolved_contracts_of_known_chain {imports : Imports} (ethers : Ethers)
    (withSignerIfPossible : option bool) (w w1 : World) (contract : Contract) :
  (useKittyContract ethers withSignerIfPossible w = (Returned (Some contract), w1) ->
   (kitty (CONTRACTS Mumbai) = Some (contract_address contract)
    \/ kitty (CONTRACTS Polygon) = Some (contract_address contract))
   /\ kitty (CONTRACTS (useChainId ethers)) = Some (contract_address contract)
   /\ contract_interface contract = KittyContractInterface
   /\ w1 = w)
  /\ (useMarketplaceContract ethers withSignerIfPossible w
      = (Returned (Some contract), w1) ->
      (marketplace (CONTRACTS Mumbai) = Some (contract_address contract)
       \/ marketplace (CONTRACTS Polygon) = Some (contract_address contract))
      /\ marketplace (CONTRACTS (useChainId ethers)) = Some (contract_address contract)
      /\ contract_interface contract = MarketplaceContractInterface
      /\ w1 = w).
Proof.
  pose proof (useChainId_known ethers) as C.
  unfold useKittyContract, useMarketplaceContract. split; intros E;
    apply useContract_some_iff in E
      as (a & i & l & A & [= <-] & _ & _ & _ & _ & -> & ->);
    cbn [contract_address contract_interface]; repeat split; auto;
    destruct C as [C|C]; rewrite C in A; auto.
Qed.

Lemma resolved_contracts_of_known_chain_witness :
  marketplace (CONTRACTS (Imports := sample_Imports) (useChainId sample_Ethers))
  = Some (contract_address sample_marketplace).
Proof.
  destruct (resolved_contracts_of_known_chain (imports := sample_Imports) sample_Ethers
              None initial_World initial_World sample_marketplace) as [_ H].
  apply H. reflexivity.
Defined.

(* ================================================================== *)
(** * Further properties of the notification adapter *)

Lemma resets_app (evs1 evs2 : list Event) :
  resets (evs1 ++ evs2) = (resets evs1 + resets evs2)%nat.
Proof. unfold resets. now rewrite filter_app, length_app. Qed.

Lemma useContractNotification_resets (status : Status)
    (errorMessage miningMessage successMessage : string) (w : World) :
  resets (trace (useContractNotification (emit EvResetState) status
                   errorMessage miningMessage successMessage w))
  = (resets (events w) + if is_terminal status then 1 else 0)%nat.
Proof.
  rewrite useContractNotification_run. unfold trace. cbn [snd].
  destruct status; cbn [is_terminal];
    try destruct (string_truthy miningMessage);
    try destruct (string_truthy successMessage);
    try destruct (string_truthy errorMessage);
    unfold notified, log_to; cbn [events toastRef toastCount];
    rewrite ?resets_app; cbn; lia.
Qed.

(** Over every sequence of statuses the adapter resets the state of the
    action once for each Success, Fail and Exception, and never otherwise,
    whether messages are configured or not. *)
Theorem observe_resets (errorMessage miningMessage successMessage : string)
    (statuses : list Status) (w : World) :
  resets (trace (observe (emit EvResetState) errorMessage miningMessage successMessage
                   statuses w))
  = (resets (events w) + List.length (filter is_terminal statuses))%nat.
Proof.
  revert w. induction statuses as [|status statuses IH]; intros w.
  - unfold trace. cbn [observe ret snd filter List.length]. lia.
  - cbn [observe]. unfold bind.
    pose proof (useContractNotification_resets status errorMessage miningMessage
                  successMessage w) as R.
    rewrite useContractNotification_run in *. unfold trace in R. cbn [snd] in R.
    unfold trace in *. rewrite IH, R. cbn [filter].
    destruct (is_terminal status); cbn [List.length]; lia.
Qed.

Lemma issued_id_log_to (w : World) (evs : list Event) :
  issued_id (toastRef (log_to w evs)) (toastCount (log_to w evs))
  = issued_id (toastRef w) (toastCount w).
Proof. reflexivity. Qed.

Lemma issued_id_notified (w : World) (kind : ToastKind) (message : string)
    (duration : option Z) :
  issued_id (toastRef (notified w kind message duration))
            (toastCount (notified w kind message duration))
  = issued_id (toastRef w) (toastCount w).
Proof. unfold notified. cbn [toastRef toastCount]. apply issued_id_kept. Qed.

Lemma useContractNotification_identity (status : Status)
    (errorMessage miningMessage successMessage : string) (w : World) :
  exists (w' : World) (new : list Event),
    useContractNotification (emit EvResetState) status
      errorMessage miningMessage successMessage w = (Returned tt, w')
    /\ events w' = (events w ++ new)%list
    /\ Forall (has_identity (issued_id (toastRef w) (toastCount w))) new
    /\ issued_id (toastRef w') (toastCount w') = issued_id (toastRef w) (toastCount w).
Proof.
  rewrite useContractNotification_run.
  destruct status;
    try destruct (string_truthy miningMessage);
    try destruct (string_truthy successMessage);
    try destruct (string_truthy errorMessage);
    eexists; eexists; (split; [reflexivity|]);
    rewrite ?issued_id_notified, ?issued_id_log_to;
    unfold notified, log_to; cbn [events toastRef toastCount];
    rewrite <- ?app_assoc;
    try (split; [reflexivity | split; [repeat constructor | reflexivity]]).
  all: split; [symmetry; apply app_nil_r | split; [constructor | reflexivity]].
Qed.

(** Over every sequence of statuses all notifications of one hook instance
    carry one identity, the one the first of them is given: each
    notification replaces the one before it, so the hook never has two
    notifications on screen. *)
Theorem observe_single_identity (errorMessage miningMessage successMessage : string)
    (statuses : list Status) (w : World) :
  exists (w' : World) (new : list Event),
    observe (emit EvResetState) errorMessage miningMessage successMessage statuses w
    = (Returned tt, w')
    /\ events w' = (events w ++ new)%list
    /\ Forall (has_identity (issued_id (toastRef w) (toastCount w))) new.
Proof.
  revert w. induction statuses as [|status statuses IH]; intros w.
  - exists w, []. repeat split; [symmetry; apply app_nil_r | constructor].
  - destruct (useContractNotification_identity status errorMessage miningMessage
                successMessage w) as (w1 & new1 & R1 & E1 & F1 & I1).
    destruct (IH w1) as (w2 & new2 & R2 & E2 & F2).
    exists w2, (new1 ++ new2)%list. split; [|split].
    + cbn [observe]. unfold bind. now rewrite R1.
    + now rewrite E2, E1, app_assoc.
    + apply Forall_app. split; [exact F1 | now rewrite <- I1].
Qed.

(* ================================================================== *)
(** * Further properties of the action hooks *)

(** When [parseEther] rejects the price, [onCreateListing] throws its
    error before anything is sent. *)
Theorem onCreateListing_parse_error {imports : Imports} (f : ContractFunction)
    (price : string) (tokenId : BigNumberish) (message : string) (w : World) :
  string_truthy price = true -> truthy tokenId = true ->
  parseEther price = Thrown message ->
  onCreateListing f (Some price) (Some tokenId) w = (Thrown message, w).
Proof.
  intros P T E. unfold onCreateListing, opt_truthy. rewrite P, T. cbn [negb orb].
  unfold bind at 1, lift. now rewrite E.
Qed.

Lemma onCreateListing_parse_error_witness :
  onCreateListing (imports := sample_Imports) sample_buy (Some "1.5x")
    (Some (VNumber 7)) initial_World
  = (Thrown "invalid decimal value", initial_World).
Proof. apply onCreateListing_parse_error; reflexivity. Defined.

(** Every falsy argument counts as absent: the bigint [0n], the empty
    string and the number [0] alike stop [onBuy], [onRemoveListing],
    [onCreateListing] and [onCreate] before anything is sent, and so does an
    empty price string or an empty marketplace address. *)
Theorem falsy_arguments_inert {imports : Imports} (f : ContractFunction)
    (v : JsValue) (w : World) :
  truthy v = false ->
  onRemoveListing f (Some v) w = (Returned None, w)
  /\ (forall price : option BigNumberish, onBuy f price (Some v) w = (Returned None, w))
  /\ (forall tokenId : option BigNumberish, onBuy f (Some v) tokenId w = (Returned None, w))
  /\ (forall price : option string,
         onCreateListing f price (Some v) w = (Returned None, w))
  /\ (forall tokenId : option BigNumberish,
         onCreateListing f (Some EmptyString) tokenId w = (Returned None, w))
  /\ (forall genes : BigNumber, onCreate f (Some v) genes w = (Returned None, w))
  /\ (forall approved : option bool,
         onApprove f (Some EmptyString) approved w = (Returned None, w)).
Proof.
  intros F. repeat match goal with |- _ /\ _ => split end.
  - unfold onRemoveListing, opt_truthy. now rewrite F.
  - intros price. unfold onBuy, opt_truthy. now rewrite F.
  - intros tokenId. unfold onBuy. cbn [opt_truthy]. rewrite F.
    now rewrite orb_true_r.
  - intros [p|]; [|reflexivity]. unfold onCreateListing, opt_truthy. rewrite F.
    now rewrite orb_true_r.
  - reflexivity.
  - intros genes. unfold onCreate, opt_truthy. now rewrite F.
  - intros [b|]; reflexivity.
Qed.

Lemma falsy_arguments_inert_witness :
  onRemoveListing sample_buy (Some (VBigInt 0)) initial_World
  = (Returned None, initial_World).
Proof.
  apply (falsy_arguments_inert (imports := sample_Imports) sample_buy (VBigInt 0)
           initial_World eq_refl).
Defined.

(** A token identifier given as a [BigNumber] object is forwarded whatever
    its value, zero included, and so is the string ["0"]: only the
    primitive zeros are taken for absent. *)
Theorem object_zero_is_forwarded (f : ContractFunction) (z : Z) (w : World) :
  onRemoveListing f (Some (VBigNumber z)) w
  = (Returned (Some (transaction f [Some (VBigNumber z)] None)),
     log_to w [EvSend (transaction f [Some (VBigNumber z)] None)])
  /\ onRemoveListing f (Some (VString "0")) w
     = (Returned (Some (transaction f [Some (VString "0")] None)),
        log_to w [EvSend (transaction f [Some (VString "0")] None)])
  /\ (forall price : Z,
         onBuy f (Some (VBigNumber price)) (Some (VBigNumber z)) w
         = (Returned None,
            log_to w [EvSend (transaction f [Some (VBigNumber z)]
                                (Some (VBigNumber price)))])).
Proof. repeat split. Qed.

Lemma sends_app (evs1 evs2 : list Event) :
  sends (evs1 ++ evs2) = (sends evs1 ++ sends evs2)%list.
Proof. apply filter_app. Qed.

Lemma useContract_quiet {imports : Imports} (ethers : Ethers)
    (address : option string) (ABI : option Interface)
    (withSignerIfPossible : option bool) (w : World) :
  exists (contract : option Contract) (w1 : World),
    useContract ethers address ABI withSignerIfPossible w = (Returned contract, w1)
    /\ sends (events w1) = sends (events w).
Proof.
  destruct (useContract_runs ethers address ABI withSignerIfPossible w)
    as [[c E] | [E | [a E]]]; rewrite E; eexists; eexists;
    (split; [reflexivity|]); try reflexivity.
  unfold log_to. cbn [events]. rewrite sends_app. cbn. apply app_nil_r.
Qed.

Lemma useContractNotification_quiet (f : ContractFunction) (status : Status)
    (errorMessage miningMessage successMessage : string) (w : World) :
  exists w1 : World,
    useContractNotification (resetState f) status
      errorMessage miningMessage successMessage w = (Returned tt, w1)
    /\ sends (events w1) = sends (events w).
Proof.
  unfold resetState. rewrite useContractNotification_run.
  eexists. split; [reflexivity|].
  destruct status;
    try destruct (string_truthy miningMessage);
    try destruct (string_truthy successMessage);
    try destruct (string_truthy errorMessage);
    unfold notified, log_to; cbn [events toastRef toastCount];
    rewrite ?sends_app; cbn; rewrite ?app_nil_r; reflexivity.
Qed.

Lemma useContractNotification_in_render_quiet (f : ContractFunction) (status : Status)
    (errorMessage miningMessage successMessage : string) (w : World) :
  exists w1 : World,
    useContractNotification_in_render (resetState f) status
      errorMessage miningMessage successMessage w = (Returned tt, w1)
    /\ sends (events w1) = sends (events w).
Proof.
  unfold useContractNotification_in_render, useEffect.
  match goal with
  | |- context [useContractNotification _ _ _ _ _ ?w'] =>
      destruct (useContractNotification_quiet f status errorMessage miningMessage
                  successMessage w') as (w1 & R & S)
  end.
  destruct (match effectDeps w with
            | Some last => negb (same_deps last _)
            | None => true
            end).
  - exists w1. split; [exact R | exact S].
  - eexists. split; reflexivity.
Qed.

Ltac render_quiet :=
  let contract := fresh "contract" in
  let w1 := fresh "w" in
  let R1 := fresh "R" in
  let S1 := fresh "S" in
  let w2 := fresh "w" in
  let R2 := fresh "R" in
  let S2 := fresh "S" in
  match goal with
  | |- context [useKittyContract ?e ?s ?w] =>
      unfold useKittyContract;
      destruct (useContract_quiet e (kitty (CONTRACTS (useChainId e)))
                  (Some KittyContractInterface) s w) as (contract & w1 & R1 & S1)
  | |- context [useMarketplaceContract ?e ?s ?w] =>
      unfold useMarketplaceContract;
      destruct (useContract_quiet e (marketplace (CONTRACTS (useChainId e)))
                  (Some MarketplaceContractInterface) s w) as (contract & w1 & R1 & S1)
  end;
  rewrite R1;
  unfold bind at 1;
  match goal with
  | |- context [useContractNotification_in_render (resetState ?f) ?s ?em ?mm ?sm ?w] =>
      destruct (useContractNotification_in_render_quiet f s em mm sm w)
        as (w2 & R2 & S2);
      rewrite R2
  end;
  eexists; eexists; split; [reflexivity | now rewrite S2, S1].

(** Rendering an action hook returns the hook and sends nothing: a
    transaction is sent only by calling the callable. *)
Theorem render_sends_nothing {imports : Imports} (ethers : Ethers)
    (st : TransactionStatus) (w : World) :
  (forall approved : option bool,
      exists (hook : ActionHook) (w' : World),
        useSetApprovalForAll ethers st approved w = (Returned hook, w')
        /\ sends (events w') = sends (events w))
  /\ (forall (price : option string) (tokenId : option BigNumberish),
         exists (hook : ActionHook) (w' : World),
           useCreateListing ethers st price tokenId w = (Returned hook, w')
           /\ sends (events w') = sends (events w))
  /\ (forall tokenId : option BigNumberish,
         exists (hook : ActionHook) (w' : World),
           useRemoveListing ethers st tokenId w = (Returned hook, w')
           /\ sends (events w') = sends (events w))
  /\ (forall momId dadId : option BigNumberish,
         exists (hook : ActionHook) (w' : World),
           useBreed ethers st momId dadId w = (Returned hook, w')
           /\ sends (events w') = sends (events w))
  /\ (forall price tokenId : option BigNumberish,
         exists (hook : ActionHook) (w' : World),
           useBuyKitty ethers st price tokenId w = (Returned hook, w')
           /\ sends (events w') = sends (events w)).
Proof.
  repeat match goal with |- _ /\ _ => split end; intros.
  - unfold useSetApprovalForAll. unfold bind at 1. render_quiet.
  - unfold useCreateListing. unfold bind at 1. render_quiet.
  - unfold useRemoveListing. unfold bind at 1. render_quiet.
  - unfold useBreed. unfold bind at 1. render_quiet.
  - unfold useBuyKitty. unfold bind at 1. render_quiet.
Qed.

Lemma useContract_result_same {imports : Imports} (ethers : Ethers)
    (address : option string) (ABI : option Interface)
    (withSignerIfPossible : option bool) (w w' : World) :
  result (useContract ethers address ABI withSignerIfPossible w)
  = result (useContract ethers address ABI withSignerIfPossible w').
Proof.
  unfold useContract, result.
  destruct address as [a|], ABI as [i|], (library ethers) as [l|]; try reflexivity.
  destruct (negb (string_truthy a) || String.eqb a AddressZero); [reflexivity|].
  unfold try_catch, bind, lift.
  destruct (getContract _ _ _ _); reflexivity.
Qed.

Lemma useGen0Price_returns {imports : Imports} (ethers : Ethers) (w : World) :
  exists (price : option JsValue) (w1 : World),
    useGen0Price ethers w = (Returned price, w1)
    /\ sends (events w1) = sends (events w).
Proof.
  pose proof (useGen0Price_run ethers w) as R.
  unfold useKittyContract in R.
  destruct (useContract_quiet ethers (kitty (CONTRACTS (useChainId ethers)))
              (Some KittyContractInterface) (Some false) w) as (c & w1 & E & S).
  rewrite E in R. destruct c as [c|].
  - rewrite R. unfold answered.
    destruct (chain _) as [[v [m|]]|]; eexists; eexists; (split; [reflexivity|]);
      unfold log_to; cbn [events]; rewrite sends_app; cbn; now rewrite app_nil_r.
  - rewrite R. eexists; eexists; split; [reflexivity | exact S].
Qed.

(** Rendering [useCreateGen0Kitty] returns the hook exactly for a record
    with a field; for the record without fields the encoding throws and so
    does the render.  A render that returns has sent nothing. *)
Theorem useCreateGen0Kitty_returns_iff {imports : Imports} (ethers : Ethers)
    (st : TransactionStatus) (dna : DNA) (w : World) :
  safe_dna dna ->
  ((exists (hook : ActionHook) (w' : World),
       useCreateGen0Kitty ethers st dna w = (Returned hook, w')
       /\ sends (events w') = sends (events w))
   <-> dna <> [])
  /\ result (useCreateGen0Kitty ethers st [] w) = Thrown "invalid BigNumber string".
Proof.
  intros _.
  assert (G : forall dna' : DNA,
             exists (contract : option Contract) (price : option JsValue) (w2 : World),
               sends (events w2) = sends (events w)
               /\ useCreateGen0Kitty ethers st dna' w
                  = (genes <- lift (useDnaToGenes dna') ;;
                     let create := useContractFunction contract "createKittyGen0" st in
                     useContractNotification_in_render (resetState create) (status (state create))
                       ("Error - create Gen0 Kitty: " ++ newline
                          ++ template (errorMessage (state create)) ++ " ")
                       ("Loading - create Gen0 Kitty with genes: "
                          ++ BigNumber_toString genes ++ "...")
                       ("Success - create Gen0 Kitty with genes: "
                          ++ BigNumber_toString genes) ;;
                     ret {| function := create;
                            callable := onCreate create price genes |}) w2).
  { intros dna'. unfold useCreateGen0Kitty, useKittyContract.
    destruct (useContract_quiet ethers (kitty (CONTRACTS (useChainId ethers)))
                (Some KittyContractInterface) None w) as (c & w1 & R1 & S1).
    destruct (useGen0Price_returns ethers w1) as (p & w2 & R2 & S2).
    exists c, p, w2. split; [now rewrite S2, S1|].
    unfold bind at 1. rewrite R1. unfold bind at 1. now rewrite R2. }
  split; [split|].
  - intros (hook & w' & E & _) ->.
    destruct (G []) as (c & p & w2 & _ & R). rewrite R in E. discriminate E.
  - intros NE. destruct dna as [|field dna]; [now elim NE|].
    destruct (G (field :: dna)) as (c & p & w2 & S & R). rewrite R.
    unfold bind at 1, lift, useDnaToGenes. rewrite convertDnaToGenes_value.
    unfold bind at 1.
    match goal with
    | |- context [useContractNotification_in_render (resetState ?f) ?s ?em ?mm ?sm w2] =>
        destruct (useContractNotification_in_render_quiet f s em mm sm w2)
          as (w3 & R3 & S3)
    end.
    rewrite R3. eexists; eexists; split; [reflexivity | now rewrite S3].
  - destruct (G []) as (c & p & w2 & _ & R). now rewrite R.
Qed.

Lemma useCreateGen0Kitty_returns_iff_witness :
  result (useCreateGen0Kitty (imports := sample_Imports) sample_Ethers idle []
            initial_World)
  = Thrown "invalid BigNumber string".
Proof.
  apply (useCreateGen0Kitty_returns_iff (imports := sample_Imports) sample_Ethers idle
           [] initial_World).
  now apply safe_dna_check.
Defined.

(** Without a kitty contract the price of a Gen0 kitty stays unknown, and
    the callable of [useCreateGen0Kitty] sends nothing. *)
Theorem onCreate_inert_without_contract {imports : Imports} (ethers : Ethers)
    (st : TransactionStatus) (dna : DNA) (w w' : World) (hook : ActionHook) :
  safe_dna dna ->
  result (useKittyContract ethers (Some false) w) = Returned None ->
  useCreateGen0Kitty ethers st dna w = (Returned hook, w') ->
  forall w2 : World, callable hook w2 = (Returned None, w2).
Proof.
  intros _ N E w2. unfold useCreateGen0Kitty in E.
  destruct (useContract_quiet ethers (kitty (CONTRACTS (useChainId ethers)))
              (Some KittyContractInterface) None w) as (c & w1 & R1 & _).
  unfold bind at 1 in E. unfold useKittyContract at 1 in E. rewrite R1 in E.
  pose proof (useGen0Price_run ethers w1) as G.
  unfold useKittyContract in N, G.
  rewrite (useContract_result_same _ _ _ _ w w1) in N. unfold result in N.
  destruct (useContract ethers _ _ (Some false) w1) as [r w1'].
  cbn [fst] in N. subst r.
  unfold bind at 1 in E. rewrite G in E.
  unfold bind at 1, lift in E.
  destruct (useDnaToGenes dna) as [genes|message]; [|discriminate E].
  unfold bind at 1 in E.
  match type of E with
  | context [useContractNotification_in_render (resetState ?f) ?s ?em ?mm ?sm w1'] =>
      destruct (useContractNotification_in_render_quiet f s em mm sm w1')
        as (w3 & R3 & _)
  end.
  rewrite R3 in E. unfold ret in E. injection E as <- _.
  reflexivity.
Qed.

Lemma onCreate_inert_without_contract_witness :
  match useCreateGen0Kitty (imports := sample_Imports) no_wallet idle dna_1_23_4
          initial_World with
  | (Returned hook, _) => callable hook initial_World = (Returned None, initial_World)
  | (Thrown _, _) => False
  end.
Proof.
  destruct (useCreateGen0Kitty (imports := sample_Imports) no_wallet idle dna_1_23_4
              initial_World) as [[hook|message] w'] eqn:E.
  - apply (onCreate_inert_without_contract (imports := sample_Imports) no_wallet idle
             dna_1_23_4 initial_World w' hook (safe_dna_check dna_1_23_4 eq_refl) eq_refl E).
  - cbv in E. discriminate E.
Defined.











(* ================================================================== *)
(** * The genes as the notifications show them *)

Lemma parse_decimal_upper (s : string) :
  all_chars is_digit s = true ->
  (parse_decimal s < 10 ^ N.of_nat (String.length s))%N.
Proof.
  unfold parse_decimal. induction s as [|c s IH]; intros D.
  - simpl. lia.
  - cbn [all_chars] in D. apply andb_true_iff in D as [C D].
    cbn [parse_radix String.length]. rewrite parse_radix_acc.
    rewrite Nat2N.inj_succ, N.pow_succ_r'.
    pose proof (digit_val_lt c C). specialize (IH D). nia.
Qed.

Lemma parse_decimal_lower (s : string) :
  all_chars is_digit s = true -> no_leading_zero s = true ->
  (10 ^ N.of_nat (String.length s) <= 10 * parse_decimal s)%N.
Proof.
  unfold parse_decimal. destruct s as [|c s]; [discriminate|]. intros _ Z.
  cbn [no_leading_zero] in Z. apply negb_true_iff, N.eqb_neq in Z.
  cbn [parse_radix String.length]. rewrite parse_radix_acc.
  rewrite Nat2N.inj_succ, N.pow_succ_r'. nia.
Qed.

Lemma digits_of_no_leading_zero (fuel : nat) : forall (n : N) (acc : string),
  (0 < n < 2 ^ N.of_nat fuel)%N -> no_leading_zero (digits_of fuel n acc) = true.
Proof.
  induction fuel as [|fuel IH]; intros n acc H.
  - simpl in H. lia.
  - cbn [digits_of].
    assert (M : (n mod 10 < 10)%N) by (apply N.mod_lt; discriminate).
    pose proof (N.div_mod n 10 ltac:(discriminate)) as DM.
    destruct (n / 10 =? 0)%N eqn:Q.
    + apply N.eqb_eq in Q. cbn [no_leading_zero].
      rewrite digit_val_digit_char by exact M.
      apply negb_true_iff, N.eqb_neq. lia.
    + apply N.eqb_neq in Q. apply IH. split; [lia|].
      rewrite Nat2N.inj_succ, N.pow_succ_r' in H.
      apply N.Div0.div_lt_upper_bound. lia.
Qed.

Lemma decimal_of_N_no_leading_zero (n : N) :
  (0 < n)%N -> no_leading_zero (decimal_of_N n) = true.
Proof.
  intros P. apply digits_of_no_leading_zero. split; [exact P|].
  rewrite Nat2N.inj_succ, N2Nat.id. apply N.log2_spec. exact P.
Qed.

Lemma pow10_mono (a b : nat) : (a < b)%nat -> (10 * 10 ^ N.of_nat a <= 10 ^ N.of_nat b)%N.
Proof.
  intros L. rewrite <- N.pow_succ_r', <- Nat2N.inj_succ.
  apply N.pow_le_mono_r; lia.
Qed.

(** Two numerals without a leading zero that denote one number are one
    string. *)
Lemma parse_decimal_inj (s1 s2 : string) :
  all_chars is_digit s1 = true -> all_chars is_digit s2 = true ->
  no_leading_zero s1 = true -> no_leading_zero s2 = true ->
  parse_decimal s1 = parse_decimal s2 -> s1 = s2.
Proof.
  intros D1 D2 Z1 Z2 E.
  pose proof (parse_decimal_upper s1 D1) as U1.
  pose proof (parse_decimal_upper s2 D2) as U2.
  pose proof (parse_decimal_lower s1 D1 Z1) as L1.
  pose proof (parse_decimal_lower s2 D2 Z2) as L2.
  assert (L : String.length s1 = String.length s2).
  { destruct (Nat.lt_trichotomy (String.length s1) (String.length s2)) as [H|[H|H]];
      [| exact H |]; apply pow10_mono in H; lia. }
  now apply (parse_radix_digits_inj s1 s2 0%N 0%N D1 D2 L).
Qed.

Lemma decimal_of_parse (s : string) :
  all_chars is_digit s = true -> no_leading_zero s = true ->
  decimal_of_N (parse_decimal s) = s.
Proof.
  intros D Z. apply parse_decimal_inj; auto.
  - apply decimal_of_N_all_digits.
  - apply decimal_of_N_no_leading_zero.
    pose proof (parse_decimal_lower s D Z) as L.
    assert (0 < 10 ^ N.of_nat (String.length s))%N
      by (apply N.neq_0_lt_0, N.pow_nonzero; discriminate).
    lia.
  - apply parse_decimal_of_N.
Qed.

(** When the first trait of a record of safe integers is not zero, the genes print as the
    digits of the traits one after the other: the genes a notification of
    [useCreateGen0Kitty] shows are the record as it was written. *)
Theorem genes_print_as_written (first : string * N) (dna : DNA) :
  safe_dna (first :: dna) ->
  snd first <> 0%N ->
  exists genes : BigNumber,
    convertDnaToGenes (first :: dna) = Returned genes
    /\ BigNumber_toString genes
       = String.concat EmptyString (field_strings (first :: dna)).
Proof.
  intros _ NZ. eexists. split; [apply convertDnaToGenes_value|].
  unfold BigNumber_toString.
  destruct (Z.ltb_spec (Z.of_N (parse_decimal
              (String.concat EmptyString (field_strings (first :: dna))))) 0) as [H|_];
    [lia|].
  rewrite N2Z.id. apply decimal_of_parse; [apply field_strings_digits|].
  unfold field_strings, Object_values. cbn [map]. rewrite concat_cons.
  pose proof (decimal_of_N_no_leading_zero (snd first) ltac:(lia)) as Z.
  unfold Number_toString. destruct (decimal_of_N (snd first)); [discriminate Z | exact Z].
Qed.

Lemma genes_print_as_written_witness :
  exists genes : BigNumber,
    convertDnaToGenes dna_1_23_4 = Returned genes
    /\ BigNumber_toString genes = "1234".
Proof.
  apply (genes_print_as_written ("a", 1%N)); [now apply safe_dna_check | discriminate].
Defined.

(* ================================================================== *)
(** * The absent contract *)

Lemma useContractNotification_in_render_returns (f : ContractFunction) (status : Status)
    (errorMessage miningMessage successMessage : string) (w : World) :
  exists w1 : World,
    useContractNotification_in_render (resetState f) status
      errorMessage miningMessage successMessage w = (Returned tt, w1).
Proof.
  destruct (useContractNotification_in_render_quiet f status errorMessage miningMessage
              successMessage w) as (w1 & R & _).
  now exists w1.
Qed.

Ltac render_absent E :=
  let w2 := fresh "w" in
  let R := fresh "R" in
  unfold bind at 1; rewrite E; unfold bind at 1;
  match goal with
  | |- context [useContractNotification_in_render (resetState ?f) ?s ?em ?mm ?sm ?w] =>
      destruct (useContractNotification_in_render_returns f s em mm sm w) as (w2 & R);
      rewrite R
  end;
  eexists; reflexivity.

(** Claim C7, as stated, fails: for the zero address [useContract] gives
    nothing and logs no diagnostic; and with no wallet connected, so that
    no marketplace contract is resolved, the callable of [useBuyKitty]
    still forwards to [send], on the absent contract. *)
Lemma useContract_zero_address_silent :
  useContract (imports := sample_Imports) sample_Ethers (Some AddressZero)
    (Some KittyContractInterface) None initial_World
  = (Returned None, initial_World)
  /\ match useBuyKitty (imports := sample_Imports) no_wallet idle
             (Some (VNumber 5)) (Some (VNumber 7)) initial_World with
     | (Returned hook, w) =>
         function_contract (function hook) = None
         /\ trace (callable hook w)
            = [EvSend {| tx_contract := None; tx_method := "buyKitty";
                         tx_args := [Some (VNumber 7)];
                         tx_value := Some (VNumber 5) |}]
     | (Thrown _, _) => False
     end.
Proof. split; [reflexivity | split; reflexivity]. Qed.

(** Claim C7, amended: [useContract] never signals an error to its caller.
    Where the address is missing, empty or the zero address, or the ABI or
    the library is missing, it gives nothing and logs nothing.  Where the
    address fails the format validation of [getContract], it gives nothing
    and logs one diagnostic, [console.error("Failed to get contract",
    error)].  With no contract the read-value hooks issue no call.  The
    action hooks approve-all, create-listing, remove-listing, breed and buy
    hand the absent contract to [useContractFunction] unchecked, and their
    callables still forward to its [send]. *)
Theorem useContract_absent {imports : Imports} (ethers : Ethers)
    (address : option string) (ABI : option Interface)
    (withSignerIfPossible : option bool) (w : World) :
  (exists contract,
      result (useContract ethers address ABI withSignerIfPossible w) = Returned contract)
  /\ (opt_string_truthy address = false \/ address = Some AddressZero
      \/ ABI = None \/ library ethers = None ->
      useContract ethers address ABI withSignerIfPossible w = (Returned None, w))
  /\ (forall a : string,
         address = Some a -> string_truthy a = true -> a <> AddressZero ->
         ABI <> None -> library ethers <> None -> isAddress a = false ->
         useContract ethers address ABI withSignerIfPossible w
         = (Returned None,
            log_to w [EvConsoleError
                        ["Failed to get contract";
                         "Invalid 'address' parameter '" ++ a ++ "'."]]))
  /\ (forall w1 : World,
         useKittyContract ethers (Some false) w = (Returned None, w1) ->
         useTotalSupply ethers w = (Returned None, w1)
         /\ useGen0Price ethers w = (Returned None, w1))
  /\ (forall (owner : option string) (w1 : World),
         useKittyContract ethers None w = (Returned None, w1) ->
         useIsApprovedForAll ethers owner w = (Returned None, w1))
  /\ (forall (st : TransactionStatus) (w1 : World),
         useKittyContract ethers None w = (Returned None, w1) ->
         (forall approved : option bool,
             exists w' : World,
               useSetApprovalForAll ethers st approved w
               = (Returned
                    {| function := useContractFunction None "setApprovalForAll" st;
                       callable :=
                         onApprove (useContractFunction None "setApprovalForAll" st)
                           (marketplace (CONTRACTS (useChainId ethers))) approved |},
                  w'))
         /\ (forall momId dadId : option BigNumberish,
                exists w' : World,
                  useBreed ethers st momId dadId w
                  = (Returned
                       {| function := useContractFunction None "breed" st;
                          callable :=
                            onBreed (useContractFunction None "breed" st) momId dadId |},
                     w')))
  /\ (forall (st : TransactionStatus) (w1 : World),
         useMarketplaceContract ethers None w = (Returned None, w1) ->
         (forall (price : option string) (tokenId : option BigNumberish),
             exists w' : World,
               useCreateListing ethers st price tokenId w
               = (Returned
                    {| function := useContractFunction None "setOffer" st;
                       callable :=
                         onCreateListing (useContractFunction None "setOffer" st)
                           price tokenId |},
                  w'))
         /\ (forall tokenId : option BigNumberish,
                exists w' : World,
                  useRemoveListing ethers st tokenId w
                  = (Returned
                       {| function := useContractFunction None "removeOffer" st;
                          callable :=
                            onRemoveListing (useContractFunction None "removeOffer" st)
                              tokenId |},
                     w'))
         /\ (forall price tokenId : option BigNumberish,
                exists w' : World,
                  useBuyKitty ethers st price tokenId w
                  = (Returned
                       {| function := useContractFunction None "buyKitty" st;
                          callable :=
                            onBuy (useContractFunction None "buyKitty" st)
                              price tokenId |},
                     w')))
  /\ (forall (method : string) (st : TransactionStatus) (w2 : World),
         (forall (owner : string) (approved : bool),
             string_truthy owner = true ->
             trace (onApprove (useContractFunction None method st)
                      (Some owner) (Some approved) w2)
             = (events w2
                ++ [EvSend {| tx_contract := None; tx_method := method;
                              tx_args := [Some (VString owner); Some (VBool approved)];
                              tx_value := None |}])%list)
         /\ (forall (price : string) (tokenId : BigNumberish) (wei : Z),
                string_truthy price = true -> truthy tokenId = true ->
                parseEther price = Returned wei ->
                trace (onCreateListing (useContractFunction None method st)
                         (Some price) (Some tokenId) w2)
                = (events w2
                   ++ [EvSend {| tx_contract := None; tx_method := method;
                                 tx_args := [Some (VBigNumber wei); Some tokenId];
                                 tx_value := None |}])%list)
         /\ (forall tokenId : BigNumberish,
                truthy tokenId = true ->
                trace (onRemoveListing (useContractFunction None method st)
                         (Some tokenId) w2)
                = (events w2
                   ++ [EvSend {| tx_contract := None; tx_method := method;
                                 tx_args := [Some tokenId]; tx_value := None |}])%list)
         /\ (forall momId dadId : option BigNumberish,
                trace (onBreed (useContractFunction None method st) momId dadId w2)
                = (events w2
                   ++ [EvSend {| tx_contract := None; tx_method := method;
                                 tx_args := [momId; dadId]; tx_value := None |}])%list)
         /\ (forall price tokenId : BigNumberish,
                truthy price = true -> truthy tokenId = true ->
                trace (onBuy (useContractFunction None method st)
                         (Some price) (Some tokenId) w2)
                = (events w2
                   ++ [EvSend {| tx_contract := None; tx_method := method;
                                 tx_args := [Some tokenId];
                                 tx_value := Some price |}])%list)).
Proof.
  split; [apply useContract_returns|].
  split; [|split; [|split; [|split; [|split; [|split]]]]].
  - unfold useContract. intros [H | [-> | [-> | H]]].
    + destruct address as [a|]; [|reflexivity]. simpl in H. rewrite H.
      destruct ABI, (library ethers); reflexivity.
    + destruct ABI, (library ethers); reflexivity.
    + destruct address; reflexivity.
    + rewrite H. destruct address, ABI; reflexivity.
  - intros a -> T NZ HA HL IA. unfold useContract.
    destruct ABI as [i|]; [|now elim HA].
    destruct (library ethers) as [l|]; [|now elim HL].
    apply String.eqb_neq in NZ. rewrite T, NZ. cbn [negb orb].
    unfold try_catch, bind, lift.
    rewrite getContract_throws by now left.
    reflexivity.
  - intros w1 E. split.
    + pose proof (useTotalSupply_run ethers w) as R. now rewrite E in R.
    + pose proof (useGen0Price_run ethers w) as R. now rewrite E in R.
  - intros owner w1 E.
    pose proof (useIsApprovedForAll_run ethers owner w) as R. now rewrite E in R.
  - intros st w1 E. split; intros.
    + unfold useSetApprovalForAll. render_absent E.
    + unfold useBreed. render_absent E.
  - intros st w1 E. split; [|split]; intros.
    + unfold useCreateListing. render_absent E.
    + unfold useRemoveListing. render_absent E.
    + unfold useBuyKitty. render_absent E.
  - intros method st w2. split; [|split; [|split; [|split]]].
    + intros owner approved T. unfold onApprove. now rewrite T.
    + intros price tokenId wei P T E. unfold onCreateListing, opt_truthy.
      rewrite P, T. cbn [negb orb]. unfold bind at 1, lift. now rewrite E.
    + intros tokenId T. unfold onRemoveListing, opt_truthy. now rewrite T.
    + reflexivity.
    + intros price tokenId P T. unfold onBuy, opt_truthy. now rewrite P, T.
Qed.

Lemma useContract_absent_witness :
  useContract (imports := sample_Imports) sample_Ethers (Some "0x12")
    (Some KittyContractInterface) None initial_World
  = (Returned None,
     log_to initial_World
       [EvConsoleError ["Failed to get contract";
                        "Invalid 'address' parameter '0x12'."]]).
Proof.
  destruct (useContract_absent (imports := sample_Imports) sample_Ethers (Some "0x12")
              (Some KittyContractInterface) None initial_World) as (_ & _ & H & _).
  apply (H "0x12"); try reflexivity; discriminate.
Defined.
